(** * media_converter: the conversion thread of [media_convert.py]

    A shallow embedding of [ConversionThread.run]: the preparation of the
    encoder arguments, the loop that turns the transcoder's diagnostic
    stream into progress notifications, and the [try]/[except] that turns
    every exception into a failure notification.

    Python values are modelled as follows.
    - [str] is [string]; a character is a code point below 256 (the
      diagnostic stream of the transcoder is ASCII text).
    - [int] is [Z].
    - [float] is IEEE 754 binary64, as [spec_float] with precision 53 and
      maximal exponent 1024, rounding to nearest, ties to even.
    - a [dict] with string keys is a [gmap string _].
    - an exception is a value of [exn]; code that may raise returns an
      [outcome]. *)

From Stdlib Require Import ZArith QArith Qround String Ascii List SpecFloat Lia.
From stdpp Require Import gmap strings list pretty.

Close Scope Q_scope.
Local Open Scope string_scope.
Local Open Scope Z_scope.

(** ** Python builtins used by [run] *)

Module Py.

(** The exception classes that the builtins used by [run] raise, and
    [ExternalError] for whatever the [ffmpeg] package and the pipe raise
    (their class is not observed by [run], only their [str]). *)
Inductive exn : Type :=
| ValueError (msg : string)
| KeyError (key : string)
| ZeroDivisionError (msg : string)
| OverflowError (msg : string)
| ExternalError (msg : string).

Inductive outcome (A : Type) : Type :=
| Returns (a : A)
| Raises (e : exn).
Arguments Returns {A} a.
Arguments Raises {A} e.

Global Instance outcome_ret : MRet outcome := fun A a => Returns a.

Global Instance outcome_bind : MBind outcome := fun A B k m =>
  match m with
  | Returns a => k a
  | Raises e => Raises e
  end.

(** *** Characters *)

Definition code (c : ascii) : Z := Z.of_N (N_of_ascii c).

Definition chr (n : Z) : ascii := ascii_of_N (Z.to_N n).

Definition squote : ascii := chr 39.
Definition dquote : ascii := chr 34.
Definition backslash : ascii := chr 92.

Definition in_range (lo hi : Z) (c : ascii) : bool :=
  (lo <=? code c) && (code c <=? hi).

(** [str.isspace] on one character. *)
Definition isspace (c : ascii) : bool :=
  in_range 9 13 c || in_range 28 32 c || (code c =? 133) || (code c =? 160).

(** The white space that [int(...)] and [float(...)] skip around a
    literal: they do not skip the separators 28 to 31. *)
Definition isspace_number (c : ascii) : bool :=
  in_range 9 13 c || (code c =? 32) || (code c =? 133) || (code c =? 160).

Definition isdigit (c : ascii) : bool := in_range 48 57 c.

Definition lower (c : ascii) : ascii :=
  if in_range 65 90 c then chr (code c + 32) else c.

(** *** [str.strip], [str.split], [repr] *)

Fixpoint lstrip_chars (sp : ascii -> bool) (cs : list ascii) : list ascii :=
  match cs with
  | c :: cs' => if sp c then lstrip_chars sp cs' else cs
  | [] => []
  end.

Definition strip_chars (sp : ascii -> bool) (cs : list ascii) : list ascii :=
  rev (lstrip_chars sp (rev (lstrip_chars sp cs))).

(** [s.strip()] *)
Definition strip (s : string) : string :=
  string_of_list_ascii (strip_chars isspace (list_ascii_of_string s)).

Fixpoint split_chars (sep : ascii) (cs : list ascii) : list (list ascii) :=
  match cs with
  | [] => [[]]
  | c :: cs' =>
      if Ascii.eqb c sep then [] :: split_chars sep cs'
      else match split_chars sep cs' with
           | p :: ps => (c :: p) :: ps
           | [] => [[c]]
           end
  end.

(** [s.split(sep)] for a separator of one character. *)
Definition split (sep : ascii) (s : string) : list string :=
  map string_of_list_ascii (split_chars sep (list_ascii_of_string s)).

Definition hexdigit (n : Z) : ascii :=
  if n <? 10 then chr (48 + n) else chr (87 + n).

Definition printable (c : ascii) : bool :=
  in_range 32 126 c || (in_range 161 255 c && negb (code c =? 173)).

Definition repr_char (q c : ascii) : list ascii :=
  if Ascii.eqb c q || Ascii.eqb c backslash then [backslash; c]
  else if code c =? 9 then [backslash; "t"%char]
  else if code c =? 10 then [backslash; "n"%char]
  else if code c =? 13 then [backslash; "r"%char]
  else if printable c then [c]
  else [backslash; "x"%char; hexdigit (code c / 16); hexdigit (code c mod 16)].

Definition has_char (c : ascii) (cs : list ascii) : bool :=
  existsb (Ascii.eqb c) cs.

(** [repr(s)] of a string. *)
Definition repr (s : string) : string :=
  let cs := list_ascii_of_string s in
  let q := if has_char squote cs && negb (has_char dquote cs)
           then dquote else squote in
  string_of_list_ascii (q :: flat_map (repr_char q) cs ++ [q]).

(** [str(e)] of an exception. *)
Definition str (e : exn) : string :=
  match e with
  | ValueError msg => msg
  | KeyError key => repr key
  | ZeroDivisionError msg => msg
  | OverflowError msg => msg
  | ExternalError msg => msg
  end.

(** *** Numeric literals *)

(** Underscores of a numeric literal: each one stands between two digits.
    Returns the literal without them, or [None] for a misplaced one. *)
Fixpoint drop_underscores (after_digit : bool) (cs : list ascii)
  : option (list ascii) :=
  match cs with
  | [] => Some []
  | c :: cs' =>
      if Ascii.eqb c "_"%char then
        if after_digit then
          match cs' with
          | d :: _ => if isdigit d then drop_underscores false cs' else None
          | [] => None
          end
        else None
      else option_map (cons c) (drop_underscores (isdigit c) cs')
  end.

Definition take_sign (cs : list ascii) : bool * list ascii :=
  match cs with
  | c :: cs' =>
      if Ascii.eqb c "-"%char then (true, cs')
      else if Ascii.eqb c "+"%char then (false, cs')
      else (false, cs)
  | [] => (false, [])
  end.

(** The longest prefix of decimal digits, as their values, and the rest. *)
Fixpoint take_digits (cs : list ascii) : list Z * list ascii :=
  match cs with
  | c :: cs' =>
      if isdigit c then
        let (ds, rest) := take_digits cs' in (code c - 48 :: ds, rest)
      else ([], cs)
  | [] => ([], [])
  end.

Definition digits_value (ds : list Z) : Z :=
  fold_left (fun acc d => 10 * acc + d) ds 0.

(** [str(n)] of an integer, as an f-string formats it. (The limit of
    4300 digits applies to it as well; the integers that [run] formats
    come from [int_of_str] and have at most 4300 digits.) *)
Definition str_of_int (n : Z) : string := pretty n.

(** The digits and underscores that a literal starts with, and what
    follows them. *)
Fixpoint take_numeral (cs : list ascii) : list ascii * list ascii :=
  match cs with
  | c :: cs' =>
      if isdigit c || Ascii.eqb c "_"%char then
        let (numeral, rest) := take_numeral cs' in (c :: numeral, rest)
      else ([], cs)
  | [] => ([], [])
  end.

(** The first [n] characters of [s]: the format [%.200R] of an error
    message cuts the [repr] of its argument. *)
Definition clip (n : nat) (s : string) : string :=
  string_of_list_ascii (take n (list_ascii_of_string s)).

(** The default of [sys.get_int_max_str_digits()]. *)
Definition max_str_digits : Z := 4300.

(** [int(s)] of a string, in base 10: white space, a sign, digits with
    single underscores between them, white space. The underscores are
    checked first, then the number of digits against the limit, then that
    nothing follows the digits. *)
Definition int_of_str (s : string) : outcome Z :=
  let invalid :=
    Raises (ValueError ("invalid literal for int() with base 10: "
                        +:+ clip 200 (repr s))) in
  let (neg, body) :=
    take_sign (strip_chars isspace_number (list_ascii_of_string s)) in
  let (numeral, rest) := take_numeral body in
  match drop_underscores false numeral with
  | None => invalid
  | Some ds =>
      let count := Z.of_nat (length ds) in
      if max_str_digits <? count then
        Raises (ValueError
          ("Exceeds the limit (4300 digits) for integer string conversion: "
           +:+ "value has " +:+ str_of_int count
           +:+ " digits; use sys.set_int_max_str_digits() "
           +:+ "to increase the limit"))
      else
        match ds, rest with
        | _ :: _, [] =>
            let n := digits_value (map (fun c => code c - 48) ds) in
            Returns (if neg then - n else n)
        | _, _ => invalid
        end
  end.

(** *** [float] *)

Definition prec : Z := 53.
Definition emax : Z := 1024.

Abbreviation float := spec_float.

(** The [float] of an [int] that binary64 holds exactly, as [x / 1000000]
    converts its integer operand. *)
Definition float_of_int (n : Z) : float := binary_normalize prec emax n 0 false.

(** The binary64 number nearest to [m * 10 ^ e], for [0 <= m], with the
    sign [neg]: the value of a decimal literal. *)
Definition float_of_decimal (neg : bool) (m e : Z) : float :=
  if m =? 0 then S754_zero neg
  else if 0 <=? e then
    binary_normalize prec emax (if neg then - (m * 10 ^ e) else m * 10 ^ e) 0 neg
  else
    let '(q, e', l) := SFdiv_core_binary prec emax m 0 (10 ^ (- e)) 0 in
    binary_round_aux prec emax neg q e' l.

(** The exponent part of a literal: nothing, or [e], a sign and digits. *)
Definition parse_exponent (cs : list ascii) : option Z :=
  match cs with
  | [] => Some 0
  | c :: cs' =>
      if Ascii.eqb (lower c) "e"%char then
        let (neg, body) := take_sign cs' in
        match take_digits body with
        | (d :: ds, []) =>
            let n := digits_value (d :: ds) in Some (if neg then - n else n)
        | _ => None
        end
      else None
  end.

(** An unsigned decimal literal [digits . digits exponent] with a digit
    before or after the point: its digits as an integer and its power of
    ten. *)
Definition parse_number (cs : list ascii) : option (Z * Z) :=
  let (ip, r1) := take_digits cs in
  let (fp, r2) :=
    match r1 with
    | c :: r => if Ascii.eqb c "."%char then take_digits r else ([], r1)
    | [] => ([], [])
    end in
  match (ip ++ fp)%list with
  | [] => None
  | ds =>
      match parse_exponent r2 with
      | Some ex => Some (digits_value ds, ex - Z.of_nat (length fp))
      | None => None
      end
  end.

(** [float(s)] of a string. *)
Definition float_of_str (s : string) : outcome float :=
  let invalid :=
    Raises (ValueError ("could not convert string to float: " +:+ repr s)) in
  match drop_underscores false
          (strip_chars isspace_number (list_ascii_of_string s)) with
  | None => invalid
  | Some cs =>
      let (neg, body) := take_sign cs in
      let word := string_of_list_ascii (map lower body) in
      if String.eqb word "inf" || String.eqb word "infinity"
      then Returns (S754_infinity neg)
      else if String.eqb word "nan" then Returns S754_nan
      else match parse_number body with
           | Some (m, e) => Returns (float_of_decimal neg m e)
           | None => invalid
           end
  end.

(** [x / y] on floats. *)
Definition truediv (x y : float) : outcome float :=
  match y with
  | S754_zero _ => Raises (ZeroDivisionError "float division by zero")
  | _ => Returns (SFdiv prec emax x y)
  end.

(** [x * y] on floats. *)
Definition mul (x y : float) : float := SFmul prec emax x y.

(** [int(x)] of a float: the integer part, towards zero. *)
Definition int_of_float (x : float) : outcome Z :=
  match x with
  | S754_nan => Raises (ValueError "cannot convert float NaN to integer")
  | S754_infinity _ =>
      Raises (OverflowError "cannot convert float infinity to integer")
  | S754_zero _ => Returns 0
  | S754_finite s m e =>
      let a := Z.shiftl (Z.pos m) e in Returns (if s then - a else a)
  end.

End Py.

Import Py.

(** ** The [ffmpeg] package and the transcoder, as [run] sees them *)

(** A transcode that comes to an end, from the side of the loop of [run].
    [stderr] lists what [process.stderr.readline().decode()] gives at each
    turn of the loop but the last: a line, the empty string (end of file
    while [process.poll()] is still [None]), or an exception. At the last
    turn the read gives the empty string and [process.poll()] gives
    [returncode], the exit status. *)
Record process : Type := {
  stderr : list (outcome string);
  returncode : Z
}.

(** What the two calls that start an external program answer:
    [ffmpeg.probe(file)], the metadata as a dictionary of dictionaries (of
    which [run] reads [probe['format']['duration']]), and
    [ffmpeg.run_async] on the stream built from the input file, the output
    file and the keyword arguments. And what PyQt makes of an [int] that
    no C [long long] holds when it is the argument of [progress.emit]: an
    exception, or some value for the slot. The source does not settle
    this, so [marshal] stands for it. *)
Record world : Type := {
  probe : string -> outcome (gmap string (gmap string string));
  run_async : string -> string -> gmap string string -> outcome process;
  marshal : Z -> outcome Z
}.

(** [d[k]] *)
Definition getitem {V} (d : gmap string V) (k : string) : outcome V :=
  match d !! k with
  | Some v => Returns v
  | None => Raises (KeyError k)
  end.

(** ** What a run does: calls that start a program, and signals *)

(** [progress = pyqtSignal(int)] and [finished = pyqtSignal(bool, str)]:
    the argument of [progress] is a C [int] of 32 bits, so [value] is the
    number that the slot receives, from [- 2 ^ 31] to [2 ^ 31 - 1]. *)
Inductive event : Type :=
| probe_call (file : string)
| run_async_call (input output : string) (args : gmap string string)
| progress (value : Z)
| finished (success : bool) (message : string).

(** Code that emits events and then returns or raises. *)
Definition runner (A : Type) : Type := list event * outcome A.

Global Instance runner_ret : MRet runner := fun A a => ([], Returns a).

Global Instance runner_bind : MBind runner := fun A B k m =>
  match m with
  | (t, Returns a) => let (t', r) := k a in ((t ++ t')%list, r)
  | (t, Raises e) => (t, Raises e)
  end.

Definition lift {A} (o : outcome A) : runner A := ([], o).

Definition emit (ev : event) : runner unit := ([ev], Returns tt).

(** [try: body except Exception as e: handler(e)] *)
Definition try_except {A} (body : runner A) (handler : exn -> runner A)
  : runner A :=
  match body with
  | (t, Returns a) => (t, Returns a)
  | (t, Raises e) => let (t', r) := handler e in ((t ++ t')%list, r)
  end.

(** The C [int] that keeps the low 32 bits of [z], in two's complement:
    what is left of a C [long long] when the slot reads it as an [int]. *)
Definition c_int (z : Z) : Z := (z + 2 ^ 31) mod 2 ^ 32 - 2 ^ 31.

(** Whether a C [long long], of 64 bits, holds [z]. *)
Definition fits_long_long (z : Z) : bool := (- 2 ^ 63 <=? z) && (z <? 2 ^ 63).

(** [self.progress.emit(value)]. PyQt stores an [int] that a C
    [long long] holds in one, and the slot receives its low 32 bits; for
    any other [int] the world tells. *)
Definition emit_progress (marshal : Z -> outcome Z) (value : Z) : runner unit :=
  if fits_long_long value then emit (progress (c_int value))
  else v ← lift (marshal value); emit (progress (c_int v)).

(** ** [ConversionThread] *)

Record ConversionThread : Type := {
  input_file : string;
  output_file : string;
  output_format : string;
  video_bitrate : option string;
  audio_bitrate : option string;
  resolution : option string
}.

Definition VIDEO : list string := ["mp4"; "avi"; "mkv"; "webm"; "mov"; "flv"].
Definition AUDIO : list string := ["mp3"; "wav"; "flac"; "ogg"; "aac"].

(** [x in l] *)
Definition is_in (x : string) (l : list string) : bool :=
  existsb (String.eqb x) l.

(** The truth value of an optional string: [None] and [''] are false. *)
Definition truthy (o : option string) : option string :=
  match o with
  | Some s => if String.eqb s EmptyString then None else Some s
  | None => None
  end.

(** [width, height = map(int, resolution.split('x'))] and
    [f'scale={width}:{height}']. The unpacking asks the iterator for a
    third item, so a third part is converted before it is refused.
    ([split] gives at least one part.) *)
Definition scale (resolution : string) : outcome string :=
  match split "x"%char resolution with
  | a :: b :: rest =>
      width ← int_of_str a;
      height ← int_of_str b;
      match rest with
      | [] => Returns ("scale=" +:+ str_of_int width +:+ ":" +:+ str_of_int height)
      | c :: _ =>
          _ ← int_of_str c;
          Raises (ValueError "too many values to unpack (expected 2)")
      end
  | [a] =>
      _ ← int_of_str a;
      Raises (ValueError "not enough values to unpack (expected 2, got 1)")
  | [] => Raises (ValueError "not enough values to unpack (expected 2, got 0)")
  end.

(** Lines 32 to 52 of [run]: the keyword arguments of [ffmpeg.output]. *)
Definition output_args (self : ConversionThread) : outcome (gmap string string) :=
  let fmt := output_format self in
  let args : gmap string string := ∅ in
  let args :=
    match truthy (video_bitrate self) with
    | Some b => if is_in fmt VIDEO then <["video_bitrate" := b]> args else args
    | None => args
    end in
  let args :=
    match truthy (audio_bitrate self) with
    | Some b => <["audio_bitrate" := b]> args
    | None => args
    end in
  args ←
    match truthy (resolution self) with
    | Some r =>
        if is_in fmt VIDEO then vf ← scale r; Returns (<["vf" := vf]> args)
        else Returns args
    | None => Returns args
    end;
  if is_in fmt VIDEO then
    Returns (<["acodec" := "aac"]> (<["vcodec" := "libx264"]> args))
  else if is_in fmt AUDIO then
    if String.eqb fmt "mp3" then Returns (<["acodec" := "libmp3lame"]> args)
    else if String.eqb fmt "ogg" then Returns (<["acodec" := "libvorbis"]> args)
    else if String.eqb fmt "aac" then Returns (<["acodec" := "aac"]> args)
    else Returns args
  else Raises (ValueError ("Unsupported output format: " +:+ fmt)).

(** Lines 66 and 67: the percentage for the value of an [out_time_ms]
    line. *)
Definition percentage (duration : float) (value : string) : outcome Z :=
  x ← float_of_str value;
  time ← truediv x (float_of_int 1000000);
  ratio ← truediv time duration;
  n ← int_of_float (mul ratio (float_of_int 100));
  Returns (Z.min n 100).

(** Lines 64 to 68: what the loop does with a line that is not empty. *)
Definition parse_line (marshal : Z -> outcome Z) (duration : float)
  (output : string) : runner unit :=
  match split "="%char output with
  | [key; value] =>
      if String.eqb (strip key) "out_time_ms" then
        p ← lift (percentage duration (strip value));
        emit_progress marshal p
      else mret tt
  | _ => mret tt
  end.

(** Lines 59 to 68: the loop, over the reads of a transcode that ends. *)
Fixpoint read_loop (marshal : Z -> outcome Z) (duration : float)
  (reads : list (outcome string)) : runner unit :=
  match reads with
  | [] => mret tt
  | r :: reads' =>
      output ← lift r;
      (if String.eqb output EmptyString then mret tt
       else parse_line marshal duration output);;
      read_loop marshal duration reads'
  end.

(** Lines 25 and 26: the duration that the probe reports. *)
Definition preflight (w : world) (file : string) : outcome float :=
  info ← probe w file;
  format ← getitem info "format";
  d ← getitem format "duration";
  float_of_str d.

(** Lines 25 to 70: the body of the [try]. *)
Definition run_body (w : world) (self : ConversionThread) : runner unit :=
  emit (probe_call (input_file self));;
  duration ← lift (preflight w (input_file self));
  args ← lift (output_args self);
  emit (run_async_call (input_file self) (output_file self) args);;
  proc ← lift (run_async w (input_file self) (output_file self) args);
  read_loop (marshal w) duration (stderr proc);;
  emit (finished true "Conversion successful").

(** [ConversionThread.run] *)
Definition run (w : world) (self : ConversionThread) : runner unit :=
  try_except (run_body w self) (fun e => emit (finished false (str e))).

(** ** Reading a run *)

(** The signals among the events: what the thread notifies. *)
Definition is_signal (ev : event) : bool :=
  match ev with
  | progress _ | finished _ _ => true
  | _ => false
  end.

Definition notifications (t : list event) : list event := List.filter is_signal t.

(** The values of the progress signals, in order. *)
Definition percentages (t : list event) : list Z :=
  flat_map (fun ev => match ev with progress p => [p] | _ => [] end) t.

(** The completion signals, in order. *)
Definition completions (t : list event) : list (bool * string) :=
  flat_map (fun ev => match ev with finished ok msg => [(ok, msg)] | _ => [] end) t.

(** The completion that follows the loop. *)
Definition completion (r : outcome unit) : event :=
  match r with
  | Returns _ => finished true "Conversion successful"
  | Raises e => finished false (str e)
  end.

(** The preparation returns arguments that hold both codecs of the video
    formats. *)
Definition has_video_codecs (o : outcome (gmap string string)) : Prop :=
  exists args, o = Returns args
    /\ args !! "vcodec" = Some "libx264" /\ args !! "acodec" = Some "aac".

(** The preparation returns arguments that hold the audio bitrate [ab]
    when it is a text that is not empty, and no audio bitrate when it is
    [None] or the empty text. *)
Definition keeps_audio_bitrate (ab : option string)
  (o : outcome (gmap string string)) : Prop :=
  exists args, o = Returns args
    /\ (forall b, ab = Some b -> b <> EmptyString ->
          args !! "audio_bitrate" = Some b)
    /\ (ab = None \/ ab = Some EmptyString -> args !! "audio_bitrate" = None).

(** A float that is not below zero (a zero of either sign and the NaN
    included). *)
Definition not_negative (x : float) : bool :=
  match x with
  | S754_finite true _ _ | S754_infinity true => false
  | _ => true
  end.

(** The elapsed time that a line reports: the value of an [out_time_ms]
    line, when [float] reads it. *)
Definition elapsed_time (output : string) : option float :=
  match split "="%char output with
  | [key; value] =>
      if String.eqb (strip key) "out_time_ms" then
        match float_of_str (strip value) with
        | Returns x => Some x
        | Raises _ => None
        end
      else None
  | _ => None
  end.

(** No read of the stream reports an elapsed time below zero. *)
Definition no_negative_time (reads : list (outcome string)) : Prop :=
  Forall (fun r =>
    match r with
    | Returns output =>
        match elapsed_time output with
        | Some x => not_negative x = true
        | None => True
        end
    | Raises _ => True
    end) reads.

(** A world whose probes report durations above zero only, and whose
    transcoders report no elapsed time below zero. *)
Definition well_timed (w : world) : Prop :=
  (forall file d, preflight w file = Returns d ->
                  SFltb (S754_zero false) d = true)
  /\ (forall input output args proc,
        run_async w input output args = Returns proc ->
        no_negative_time (stderr proc)).

(** The world [w] in which every transcode ends with the exit status [rc]. *)
Definition set_returncode (rc : Z) (w : world) : world :=
  {| probe := probe w;
     run_async := fun i o args =>
       proc ← run_async w i o args;
       Returns {| stderr := stderr proc; returncode := rc |};
     marshal := marshal w |}.

(** The thread for a target format, the other fields being given. *)
Definition thread (input output : string) (vb ab res : option string)
  (fmt : string) : ConversionThread :=
  Build_ConversionThread input output fmt vb ab res.

(** *** Scenarios *)

Definition newline : string := String (chr 10) EmptyString.

(** In the scenarios an [int] that no C [long long] holds is refused (no
    percentage of theirs is one). *)
Definition refused (value : Z) : outcome Z :=
  Raises (OverflowError "int too big to convert").

(** The world in which the probe reports the duration [dur], and the
    transcode writes [lines] to its diagnostic stream and ends with the
    exit status [rc]. *)
Definition scripted (dur : string) (lines : list string) (rc : Z) : world :=
  {| probe := fun _ => Returns {[ "format" := {[ "duration" := dur ]} ]};
     run_async := fun _ _ _ =>
       Returns {| stderr := map Returns lines; returncode := rc |};
     marshal := refused |}.

(** The world in which the probe fails. *)
Definition unreadable (msg : string) : world :=
  {| probe := fun _ => Raises (ExternalError msg);
     run_async := fun _ _ _ => Returns {| stderr := []; returncode := 0 |};
     marshal := refused |}.

(** A request for the format [fmt] with the audio bitrate that the window
    preselects, and neither video bitrate nor resolution. *)
Definition convert_to (fmt : string) : ConversionThread :=
  thread "in.avi" ("out." +:+ fmt) None (Some "192k") None fmt.

(** The percentage as the specification words it, in exact arithmetic:
    the floor of [v / 1000000 / d * 100], at most 100. *)
Definition percentage_spec (v d : Q) : Z :=
  Z.min (Qfloor (v / 1000000 / d * 100)%Q) 100.

(** ** The window: [MediaConverterGUI] *)

Module Window.

(** The items of the four combo boxes, as [initUI] adds them. *)
Definition format_items : list string :=
  ["mp4 (Video)"; "avi (Video)"; "mkv (Video)"; "webm (Video)";
   "mov (Video)"; "flv (Video)"; "mp3 (Audio)"; "wav (Audio)";
   "flac (Audio)"; "ogg (Audio)"; "aac (Audio)"].
Definition video_bitrate_items : list string :=
  ["500k"; "1M"; "2M"; "5M"; "10M"; "20M"].
Definition audio_bitrate_items : list string :=
  ["64k"; "128k"; "192k"; "256k"; "320k"].
Definition resolution_items : list string :=
  ["640x480"; "1280x720"; "1920x1080"; "3840x2160"].

(** The attributes of the window that its methods read or write: the two
    paths, the text of a label, the current text of a combo box, whether
    a widget was last made visible (which is what [isVisible()] answers
    once the window is shown), whether the button is enabled, the value
    last handed to [progress_bar.setValue] (the bar itself keeps a value
    only when it lies in its range), the thread, and the signals of the
    thread that are queued for the window and not yet delivered (a
    [progress] with the C [int] that its slot receives). *)
Record MediaConverterGUI : Type := {
  input_file : string;
  output_file : string;
  input_label : string;
  format_combo : string;
  video_bitrate_combo : string;
  audio_bitrate_combo : string;
  resolution_combo : string;
  video_bitrate_label_visible : bool;
  video_bitrate_combo_visible : bool;
  resolution_label_visible : bool;
  resolution_combo_visible : bool;
  convert_button : bool;
  progress_bar : option Z;
  status_label : string;
  conversion_thread : option ConversionThread;
  signals : list event
}.

Definition set_input_file (v : string) (self : MediaConverterGUI) : MediaConverterGUI :=
  {| input_file := v;
     output_file := output_file self;
     input_label := input_label self;
     format_combo := format_combo self;
     video_bitrate_combo := video_bitrate_combo self;
     audio_bitrate_combo := audio_bitrate_combo self;
     resolution_combo := resolution_combo self;
     video_bitrate_label_visible := video_bitrate_label_visible self;
     video_bitrate_combo_visible := video_bitrate_combo_visible self;
     resolution_label_visible := resolution_label_visible self;
     resolution_combo_visible := resolution_combo_visible self;
     convert_button := convert_button self;
     progress_bar := progress_bar self;
     status_label := status_label self;
     conversion_thread := conversion_thread self;
     signals := signals self |}.

Definition set_output_file (v : string) (self : MediaConverterGUI) : MediaConverterGUI :=
  {| input_file := input_file self;
     output_file := v;
     input_label := input_label self;
     format_combo := format_combo self;
     video_bitrate_combo := video_bitrate_combo self;
     audio_bitrate_combo := audio_bitrate_combo self;
     resolution_combo := resolution_combo self;
     video_bitrate_label_visible := video_bitrate_label_visible self;
     video_bitrate_combo_visible := video_bitrate_combo_visible self;
     resolution_label_visible := resolution_label_visible self;
     resolution_combo_visible := resolution_combo_visible self;
     convert_button := convert_button self;
     progress_bar := progress_bar self;
     status_label := status_label self;
     conversion_thread := conversion_thread self;
     signals := signals self |}.

Definition set_input_label (v : string) (self : MediaConverterGUI) : MediaConverterGUI :=
  {| input_file := input_file self;
     output_file := output_file self;
     input_label := v;
     format_combo := format_combo self;
     video_bitrate_combo := video_bitrate_combo self;
     audio_bitrate_combo := audio_bitrate_combo self;
     resolution_combo := resolution_combo self;
     video_bitrate_label_visible := video_bitrate_label_visible self;
     video_bitrate_combo_visible := video_bitrate_combo_visible self;
     resolution_label_visible := resolution_label_visible self;
     resolution_combo_visible := resolution_combo_visible self;
     convert_button := convert_button self;
     progress_bar := progress_bar self;
     status_label := status_label self;
     conversion_thread := conversion_thread self;
     signals := signals self |}.

Definition set_format_combo (v : string) (self : MediaConverterGUI) : MediaConverterGUI :=
  {| input_file := input_file self;
     output_file := output_file self;
     input_label := input_label self;
     format_combo := v;
     video_bitrate_combo := video_bitrate_combo self;
     audio_bitrate_combo := audio_bitrate_combo self;
     resolution_combo := resolution_combo self;
     video_bitrate_label_visible := video_bitrate_label_visible self;
     video_bitrate_combo_visible := video_bitrate_combo_visible self;
     resolution_label_visible := resolution_label_visible self;
     resolution_combo_visible := resolution_combo_visible self;
     convert_button := convert_button self;
     progress_bar := progress_bar self;
     status_label := status_label self;
     conversion_thread := conversion_thread self;
     signals := signals self |}.

Definition set_video_bitrate_combo (v : string) (self : MediaConverterGUI) : MediaConverterGUI :=
  {| input_file := input_file self;
     output_file := output_file self;
     input_label := input_label self;
     format_combo := format_combo self;
     video_bitrate_combo := v;
     audio_bitrate_combo := audio_bitrate_combo self;
     resolution_combo := resolution_combo self;
     video_bitrate_label_visible := video_bitrate_label_visible self;
     video_bitrate_combo_visible := video_bitrate_combo_visible self;
     resolution_label_visible := resolution_label_visible self;
     resolution_combo_visible := resolution_combo_visible self;
     convert_button := convert_button self;
     progress_bar := progress_bar self;
     status_label := status_label self;
     conversion_thread := conversion_thread self;
     signals := signals self |}.

Definition set_audio_bitrate_combo (v : string) (self : MediaConverterGUI) : MediaConverterGUI :=
  {| input_file := input_file self;
     output_file := output_file self;
     input_label := input_label self;
     format_combo := format_combo self;
     video_bitrate_combo := video_bitrate_combo self;
     audio_bitrate_combo := v;
     resolution_combo := resolution_combo self;
     video_bitrate_label_visible := video_bitrate_label_visible self;
     video_bitrate_combo_visible := video_bitrate_combo_visible self;
     resolution_label_visible := resolution_label_visible self;
     resolution_combo_visible := resolution_combo_visible self;
     convert_button := convert_button self;
     progress_bar := progress_bar self;
     status_label := status_label self;
     conversion_thread := conversion_thread self;
     signals := signals self |}.

Definition set_resolution_combo (v : string) (self : MediaConverterGUI) : MediaConverterGUI :=
  {| input_file := input_file self;
     output_file := output_file self;
     input_label := input_label self;
     format_combo := format_combo self;
     video_bitrate_combo := video_bitrate_combo self;
     audio_bitrate_combo := audio_bitrate_combo self;
     resolution_combo := v;
     video_bitrate_label_visible := video_bitrate_label_visible self;
     video_bitrate_combo_visible := video_bitrate_combo_visible self;
     resolution_label_visible := resolution_label_visible self;
     resolution_combo_visible := resolution_combo_visible self;
     convert_button := convert_button self;
     progress_bar := progress_bar self;
     status_label := status_label self;
     conversion_thread := conversion_thread self;
     signals := signals self |}.

Definition set_convert_button (v : bool) (self : MediaConverterGUI) : MediaConverterGUI :=
  {| input_file := input_file self;
     output_file := output_file self;
     input_label := input_label self;
     format_combo := format_combo self;
     video_bitrate_combo := video_bitrate_combo self;
     audio_bitrate_combo := audio_bitrate_combo self;
     resolution_combo := resolution_combo self;
     video_bitrate_label_visible := video_bitrate_label_visible self;
     video_bitrate_combo_visible := video_bitrate_combo_visible self;
     resolution_label_visible := resolution_label_visible self;
     resolution_combo_visible := resolution_combo_visible self;
     convert_button := v;
     progress_bar := progress_bar self;
     status_label := status_label self;
     conversion_thread := conversion_thread self;
     signals := signals self |}.

Definition set_progress_bar (v : option Z) (self : MediaConverterGUI) : MediaConverterGUI :=
  {| input_file := input_file self;
     output_file := output_file self;
     input_label := input_label self;
     format_combo := format_combo self;
     video_bitrate_combo := video_bitrate_combo self;
     audio_bitrate_combo := audio_bitrate_combo self;
     resolution_combo := resolution_combo self;
     video_bitrate_label_visible := video_bitrate_label_visible self;
     video_bitrate_combo_visible := video_bitrate_combo_visible self;
     resolution_label_visible := resolution_label_visible self;
     resolution_combo_visible := resolution_combo_visible self;
     convert_button := convert_button self;
     progress_bar := v;
     status_label := status_label self;
     conversion_thread := conversion_thread self;
     signals := signals self |}.

Definition set_status_label (v : string) (self : MediaConverterGUI) : MediaConverterGUI :=
  {| input_file := input_file self;
     output_file := output_file self;
     input_label := input_label self;
     format_combo := format_combo self;
     video_bitrate_combo := video_bitrate_combo self;
     audio_bitrate_combo := audio_bitrate_combo self;
     resolution_combo := resolution_combo self;
     video_bitrate_label_visible := video_bitrate_label_visible self;
     video_bitrate_combo_visible := video_bitrate_combo_visible self;
     resolution_label_visible := resolution_label_visible self;
     resolution_combo_visible := resolution_combo_visible self;
     convert_button := convert_button self;
     progress_bar := progress_bar self;
     status_label := v;
     conversion_thread := conversion_thread self;
     signals := signals self |}.

Definition set_conversion_thread (v : option ConversionThread) (self : MediaConverterGUI) : MediaConverterGUI :=
  {| input_file := input_file self;
     output_file := output_file self;
     input_label := input_label self;
     format_combo := format_combo self;
     video_bitrate_combo := video_bitrate_combo self;
     audio_bitrate_combo := audio_bitrate_combo self;
     resolution_combo := resolution_combo self;
     video_bitrate_label_visible := video_bitrate_label_visible self;
     video_bitrate_combo_visible := video_bitrate_combo_visible self;
     resolution_label_visible := resolution_label_visible self;
     resolution_combo_visible := resolution_combo_visible self;
     convert_button := convert_button self;
     progress_bar := progress_bar self;
     status_label := status_label self;
     conversion_thread := v;
     signals := signals self |}.

Definition set_signals (v : list event) (self : MediaConverterGUI) : MediaConverterGUI :=
  {| input_file := input_file self;
     output_file := output_file self;
     input_label := input_label self;
     format_combo := format_combo self;
     video_bitrate_combo := video_bitrate_combo self;
     audio_bitrate_combo := audio_bitrate_combo self;
     resolution_combo := resolution_combo self;
     video_bitrate_label_visible := video_bitrate_label_visible self;
     video_bitrate_combo_visible := video_bitrate_combo_visible self;
     resolution_label_visible := resolution_label_visible self;
     resolution_combo_visible := resolution_combo_visible self;
     convert_button := convert_button self;
     progress_bar := progress_bar self;
     status_label := status_label self;
     conversion_thread := conversion_thread self;
     signals := v |}.

Definition set_video_options_visible (v : bool) (self : MediaConverterGUI) : MediaConverterGUI :=
  {| input_file := input_file self;
     output_file := output_file self;
     input_label := input_label self;
     format_combo := format_combo self;
     video_bitrate_combo := video_bitrate_combo self;
     audio_bitrate_combo := audio_bitrate_combo self;
     resolution_combo := resolution_combo self;
     video_bitrate_label_visible := v;
     video_bitrate_combo_visible := v;
     resolution_label_visible := v;
     resolution_combo_visible := v;
     convert_button := convert_button self;
     progress_bar := progress_bar self;
     status_label := status_label self;
     conversion_thread := conversion_thread self;
     signals := signals self |}.

(** [s.split()]: the words of [s], separated by white space. [word] is
    the word being read, backwards. *)
Fixpoint split_whitespace (word cs : list ascii) : list (list ascii) :=
  match cs with
  | [] => match word with [] => [] | _ => [rev word] end
  | c :: cs' =>
      if isspace c then
        match word with
        | [] => split_whitespace [] cs'
        | _ => rev word :: split_whitespace [] cs'
        end
      else split_whitespace (c :: word) cs'
  end.

(** [s.split()[0]], or [None] when it raises [IndexError]: [s] has no
    word. *)
Definition first_word (s : string) : option string :=
  match split_whitespace [] (list_ascii_of_string s) with
  | word :: _ => Some (string_of_list_ascii word)
  | [] => None
  end.

(** [os.path.basename(path)], on a system whose separator is the slash
    (the separator of the paths that the file dialogs answer). *)
Definition basename (path : string) : string :=
  List.last (split "/"%char path) EmptyString.

(** The window when [initUI] has filled the combo boxes and selected
    their entries, before its call of [update_visible_options]. *)
Definition widgets : MediaConverterGUI :=
  {| input_file := EmptyString;
     output_file := EmptyString;
     input_label := "Input File:";
     format_combo := "mp4 (Video)";
     video_bitrate_combo := "5M";
     audio_bitrate_combo := "192k";
     resolution_combo := "1280x720";
     video_bitrate_label_visible := true;
     video_bitrate_combo_visible := true;
     resolution_label_visible := true;
     resolution_combo_visible := true;
     convert_button := true;
     progress_bar := None;
     status_label := EmptyString;
     conversion_thread := None;
     signals := [] |}.

(** Lines 167 to 173. A method of the window that raises gives [None]:
    nothing catches the exception. *)
Definition update_visible_options (self : MediaConverterGUI)
  : option MediaConverterGUI :=
  output_format ← first_word (format_combo self);
  let is_video := is_in output_format VIDEO in
  Some (set_video_options_visible is_video self).

(** Lines 79 to 160, as far as the attributes go. *)
Definition initUI : option MediaConverterGUI :=
  update_visible_options widgets.

(** Lines 162 to 165; [answer] is the path that the dialog answers, empty
    when the user cancels. *)
Definition select_input_file (answer : string) (self : MediaConverterGUI)
  : MediaConverterGUI :=
  let self := set_input_file answer self in
  if String.eqb (input_file self) EmptyString then self
  else set_input_label ("Input File: " +:+ basename (input_file self)) self.

(** Lines 175 to 198; [answer] is the path that the save dialog answers,
    and [w] what the probe and the transcoder do for the thread. The
    signals of the thread are queued for the window. *)
Definition start_conversion (answer : string) (w : world)
  (self : MediaConverterGUI) : option MediaConverterGUI :=
  if String.eqb (input_file self) EmptyString then
    Some (set_status_label "Please select an input file." self)
  else
    output_format ← first_word (format_combo self);
    let self := set_output_file answer self in
    if String.eqb (output_file self) EmptyString then Some self
    else
      let self := set_convert_button false self in
      let self := set_progress_bar (Some 0) self in
      let self := set_status_label "Converting..." self in
      let video_bitrate :=
        if video_bitrate_combo_visible self
        then Some (video_bitrate_combo self) else None in
      let audio_bitrate := Some (audio_bitrate_combo self) in
      let resolution :=
        if resolution_combo_visible self
        then Some (resolution_combo self) else None in
      let t := Build_ConversionThread (input_file self) (output_file self)
                 output_format video_bitrate audio_bitrate resolution in
      let self := set_conversion_thread (Some t) self in
      Some (set_signals (signals self ++ notifications (fst (run w t)))%list
                 self).

(** Lines 200 and 201. *)
Definition update_progress (value : Z) (self : MediaConverterGUI)
  : MediaConverterGUI :=
  set_progress_bar (Some value) self.

(** Lines 203 to 208. *)
Definition conversion_finished (success : bool) (message : string)
  (self : MediaConverterGUI) : MediaConverterGUI :=
  let self := set_convert_button true self in
  if success then set_status_label "Conversion completed successfully." self
  else set_status_label ("Conversion failed: " +:+ message) self.

(** What happens to the window: the user answers the dialog of the
    [Select File] button, picks an item of a combo box, clicks [Convert]
    and answers the save dialog, or the next queued signal of the thread
    reaches its slot. *)
Inductive action : Type :=
| click_select_file (answer : string)
| pick_format (item : string)
| pick_video_bitrate (item : string)
| pick_audio_bitrate (item : string)
| pick_resolution (item : string)
| click_convert (answer : string) (w : world)
| deliver.

(** The slot that an action reaches. A combo box offers its items only,
    and tells [update_visible_options] when its text changes; a button
    that is not enabled takes no click. *)
Definition handle (a : action) (self : MediaConverterGUI)
  : option MediaConverterGUI :=
  match a with
  | click_select_file answer => Some (select_input_file answer self)
  | pick_format item =>
      if is_in item format_items && negb (String.eqb item (format_combo self))
      then update_visible_options (set_format_combo item self)
      else Some self
  | pick_video_bitrate item =>
      Some (if is_in item video_bitrate_items
               then set_video_bitrate_combo item self else self)
  | pick_audio_bitrate item =>
      Some (if is_in item audio_bitrate_items
               then set_audio_bitrate_combo item self else self)
  | pick_resolution item =>
      Some (if is_in item resolution_items
               then set_resolution_combo item self else self)
  | click_convert answer w =>
      if convert_button self then start_conversion answer w self
      else Some self
  | deliver =>
      match signals self with
      | progress value :: rest => Some (update_progress value (set_signals rest self))
      | finished success message :: rest =>
          Some (conversion_finished success message (set_signals rest self))
      | _ :: rest => Some (set_signals rest self)
      | [] => Some self
      end
  end.

(** The window after a list of actions. *)
Fixpoint handle_all (actions : list action) (self : MediaConverterGUI)
  : option MediaConverterGUI :=
  match actions with
  | [] => Some self
  | a :: actions' => self' ← handle a self; handle_all actions' self'
  end.

(** The window after [initUI] and a list of actions. *)
Definition session (actions : list action) : option MediaConverterGUI :=
  self ← initUI; handle_all actions self.

(** Whether the four widgets of the video options were last made visible. *)
Definition video_options (self : MediaConverterGUI) : list bool :=
  [video_bitrate_label_visible self; video_bitrate_combo_visible self;
   resolution_label_visible self; resolution_combo_visible self].

(** A thread as the window builds it from its combo boxes: a format of
    VIDEO with a video bitrate and a resolution among the items, or a
    format of AUDIO with neither, and an audio bitrate among the items. *)
Definition built_from_items (t : ConversionThread) : Prop :=
  is_in (output_format t) (VIDEO ++ AUDIO) = true
  /\ (exists b, audio_bitrate t = Some b /\ is_in b audio_bitrate_items = true)
  /\ if is_in (output_format t) VIDEO then
       (exists b, video_bitrate t = Some b /\ is_in b video_bitrate_items = true)
       /\ (exists r, resolution t = Some r /\ is_in r resolution_items = true)
     else video_bitrate t = None /\ resolution t = None.

(** What holds of the window after [initUI] and after every action. *)
Record consistent (self : MediaConverterGUI) : Prop := {
  format_offered : is_in (format_combo self) format_items = true;
  video_bitrate_offered :
    is_in (video_bitrate_combo self) video_bitrate_items = true;
  audio_bitrate_offered :
    is_in (audio_bitrate_combo self) audio_bitrate_items = true;
  resolution_offered : is_in (resolution_combo self) resolution_items = true;
  options_follow_format :
    exists fmt, first_word (format_combo self) = Some fmt
      /\ video_options self = repeat (is_in fmt VIDEO) 4;
  button_follows_thread :
    if convert_button self then signals self = []
    else exists ps ok msg,
           signals self = (map progress ps ++ [finished ok msg])%list;
  thread_built_from_items :
    forall t, conversion_thread self = Some t -> built_from_items t
}.

(** The values of the progress bar: the one it was handed last, and those
    on their way to it. *)
Definition bar_values (self : MediaConverterGUI) : list Z :=
  (match progress_bar self with Some v => [v] | None => [] end
   ++ percentages (signals self))%list.

(** An action whose conversion, if it starts one, runs in a world that
    is well timed. *)
Definition well_timed_action (a : action) : Prop :=
  match a with
  | click_convert _ w => well_timed w
  | _ => True
  end.

End Window.

(** *** Scenarios of the window *)

(** The user selects a file, picks the format [mp3] and converts; the
    probe reports 100 seconds and the transcoder one elapsed time. *)
Definition convert_to_mp3 : list Window.action :=
  [Window.click_select_file "/home/user/in.avi";
   Window.pick_format "mp3 (Audio)";
   Window.click_convert "/home/user/out.mp3"
     (scripted "100.000000" ["out_time_ms=50000000" +:+ newline] 0)].

(** The world in which the probe reports the metadata [info]. *)
Definition probed (info : gmap string (gmap string string)) : world :=
  {| probe := fun _ => Returns info;
     run_async := fun _ _ _ => Returns {| stderr := []; returncode := 0 |};
     marshal := refused |}.

(** * Properties *)

(** ** Texts and numbers *)

Lemma list_ascii_of_string_app (a b : string) :
  list_ascii_of_string (a +:+ b)
    = (list_ascii_of_string a ++ list_ascii_of_string b)%list.
Proof.
  induction a as [|c a IH]; simpl; [reflexivity|].
  f_equal. exact IH.
Qed.

Lemma split_chars_none (sep : ascii) (cs : list ascii) :
  has_char sep cs = false -> split_chars sep cs = [cs].
Proof.
  induction cs as [|c cs IH]; simpl; [reflexivity|].
  rewrite orb_false_iff. intros [Hc Hcs].
  rewrite Ascii.eqb_sym, Hc, (IH Hcs). reflexivity.
Qed.

Lemma split_chars_one (sep : ascii) (k v : list ascii) :
  has_char sep k = false -> has_char sep v = false ->
  split_chars sep (k ++ sep :: v) = [k; v].
Proof.
  intros Hk Hv. induction k as [|c k IH]; simpl.
  - rewrite Ascii.eqb_refl, (split_chars_none _ _ Hv). reflexivity.
  - simpl in Hk. apply orb_false_iff in Hk as [Hc Hk].
    rewrite Ascii.eqb_sym, Hc, (IH Hk). reflexivity.
Qed.

Lemma pretty_N_char_digit (n : N) :
  (n < 10)%N ->
  isdigit (pretty_N_char n) = true /\ code (pretty_N_char n) - 48 = Z.of_N n.
Proof.
  intros Hn. rewrite <- (N2Nat.id n).
  assert (Hm : (N.to_nat n < 10)%nat) by lia.
  clear Hn. revert Hm. generalize (N.to_nat n). intros m Hm.
  do 10 (destruct m as [|m]; [split; reflexivity|]). lia.
Qed.

(** The digits that [pretty_N_go] puts before its accumulator: as many as
    the number has. *)
Lemma pretty_N_go_digits (x : N) (s : string) :
  exists pre,
    list_ascii_of_string (pretty_N_go x s) = (pre ++ list_ascii_of_string s)%list
    /\ Forall (fun c => isdigit c = true) pre
    /\ (forall acc,
          fold_left (fun acc d => 10 * acc + d)
            (map (fun c => code c - 48) pre) acc
          = acc * 10 ^ Z.of_nat (length pre) + Z.of_N x)
    /\ (x = 0%N -> pre = [])
    /\ ((0 < x)%N -> pre <> [] /\ 10 ^ (Z.of_nat (length pre) - 1) <= Z.of_N x).
Proof.
  revert s. induction (N.lt_wf_0 x) as [x _ IH]. intros s.
  destruct (N.eq_dec x 0%N) as [->|Hx].
  - exists []. rewrite pretty_N_go_0. repeat split.
    + constructor.
    + intros acc. simpl. lia.
    + lia.
    + lia.
  - assert (Hpos : (0 < x)%N) by lia.
    rewrite (pretty_N_go_step x s Hpos).
    destruct (IH (x `div` 10)%N (N.div_lt x 10%N Hpos eq_refl)
                (String (pretty_N_char (x `mod` 10)) s))
      as (pre & Hlist & Hdigits & Hvalue & Hzero & Hlen).
    destruct (pretty_N_char_digit (x `mod` 10)%N) as [Hc Hcode].
    { apply N.mod_lt. discriminate. }
    assert (Hdm : x = (10 * (x `div` 10) + x `mod` 10)%N)
      by (apply N.div_mod; discriminate).
    assert (Hx10 : Z.of_N x = 10 * Z.of_N (x `div` 10) + Z.of_N (x `mod` 10))
      by lia.
    exists (pre ++ [pretty_N_char (x `mod` 10)])%list.
    split; [|split; [|split; [|split]]].
    + rewrite Hlist. simpl. rewrite <- app_assoc. reflexivity.
    + apply Forall_app. split; [exact Hdigits|]. constructor; [exact Hc|constructor].
    + intros acc. rewrite map_app, fold_left_app, Hvalue. simpl.
      rewrite Hcode, length_app. simpl.
      rewrite Nat2Z.inj_add, Z.pow_add_r by lia.
      change (10 ^ Z.of_nat 1) with 10. lia.
    + intros H0. lia.
    + intros _. split; [destruct pre; discriminate|].
      rewrite length_app. simpl. rewrite Nat2Z.inj_add.
      replace (Z.of_nat (length pre) + Z.of_nat 1 - 1)
        with (Z.of_nat (length pre)) by lia.
      destruct (N.eq_dec (x `div` 10)%N 0%N) as [Hq|Hq].
      * rewrite (Hzero Hq). simpl. lia.
      * destruct Hlen as [Hpre Hlen]; [apply N.neq_0_lt_0; exact Hq|].
        assert (Hl : (0 < length pre)%nat)
          by (destruct pre; [contradiction|simpl; lia]).
        replace (Z.of_nat (length pre))
          with (1 + (Z.of_nat (length pre) - 1)) by lia.
        rewrite Z.pow_add_r by lia. change (10 ^ 1) with 10.
        pose proof (N2Z.is_nonneg (x `mod` 10)) as Hr.
        revert Hx10 Hlen Hr.
        generalize (10 ^ (Z.of_nat (length pre) - 1)) (Z.of_N x)
          (Z.of_N (x `div` 10)) (Z.of_N (x `mod` 10)).
        intros. lia.
Qed.

Lemma digit_is_plain (c : ascii) :
  isdigit c = true ->
  isspace_number c = false
  /\ Ascii.eqb c "_"%char = false
  /\ Ascii.eqb c "x"%char = false
  /\ Ascii.eqb c "-"%char = false
  /\ Ascii.eqb c "+"%char = false.
Proof.
  unfold isdigit, isspace_number, in_range. intros H.
  apply andb_true_iff in H as [Hlo Hhi].
  apply Z.leb_le in Hlo, Hhi.
  repeat split.
  - repeat (apply orb_false_iff; split).
    + apply andb_false_iff. right. apply Z.leb_gt. lia.
    + apply Z.eqb_neq. lia.
    + apply Z.eqb_neq. lia.
    + apply Z.eqb_neq. lia.
  - apply Ascii.eqb_neq. intros ->. vm_compute in Hhi. contradiction.
  - apply Ascii.eqb_neq. intros ->. vm_compute in Hhi. contradiction.
  - apply Ascii.eqb_neq. intros ->. vm_compute in Hlo. contradiction.
  - apply Ascii.eqb_neq. intros ->. vm_compute in Hlo. contradiction.
Qed.

Lemma take_numeral_digits (cs : list ascii) :
  Forall (fun c => isdigit c = true) cs -> take_numeral cs = (cs, []).
Proof.
  induction 1 as [|c cs Hc _ IH]; [reflexivity|].
  simpl. rewrite Hc, IH. reflexivity.
Qed.

Lemma lstrip_chars_head (sp : ascii -> bool) (c : ascii) (cs : list ascii) :
  sp c = false -> lstrip_chars sp (c :: cs) = c :: cs.
Proof. intros H. simpl. rewrite H. reflexivity. Qed.

(** Nothing is stripped from a text that neither starts nor ends with
    white space. *)
Lemma strip_chars_plain (sp : ascii -> bool) (cs : list ascii) :
  Forall (fun c => sp c = false) cs -> strip_chars sp cs = cs.
Proof.
  intros H. unfold strip_chars.
  assert (Hl : forall l, Forall (fun c => sp c = false) l -> lstrip_chars sp l = l).
  { intros [|c l] Hf; [reflexivity|].
    inversion Hf; subst. apply lstrip_chars_head. assumption. }
  rewrite (Hl cs H), Hl, rev_involutive; [reflexivity|].
  apply Forall_rev. exact H.
Qed.

Lemma drop_underscores_plain (cs : list ascii) (b : bool) :
  Forall (fun c => Ascii.eqb c "_"%char = false) cs ->
  drop_underscores b cs = Some cs.
Proof.
  intros H. revert b. induction H as [|c cs Hc _ IH]; intros b; [reflexivity|].
  simpl. rewrite Hc, IH. reflexivity.
Qed.

(** [int] reads a text of at most 4300 digits, with a minus sign or
    without, as its value. *)
Lemma int_of_str_digits (neg : bool) (cs : list ascii) :
  cs <> [] -> Forall (fun c => isdigit c = true) cs ->
  Z.of_nat (length cs) <= max_str_digits ->
  int_of_str (string_of_list_ascii ((if neg then ["-"%char] else []) ++ cs))
  = Returns (let n := digits_value (map (fun c => code c - 48) cs) in
             if neg then - n else n).
Proof.
  intros Hne Hdigits Hlen. unfold int_of_str.
  rewrite list_ascii_of_string_of_list_ascii.
  assert (Hplain : Forall (fun c => isspace_number c = false)
                     ((if neg then ["-"%char] else []) ++ cs)).
  { apply Forall_app. split.
    - destruct neg; repeat constructor.
    - eapply Forall_impl; [exact Hdigits|].
      intros c Hc. apply (digit_is_plain c Hc). }
  rewrite (strip_chars_plain _ _ Hplain).
  assert (Hsign : take_sign ((if neg then ["-"%char] else []) ++ cs) = (neg, cs)).
  { destruct cs as [|c cs]; [contradiction|].
    assert (Hc : isdigit c = true) by (inversion Hdigits; assumption).
    destruct (digit_is_plain c Hc) as (_ & _ & _ & Hminus & Hplus).
    destruct neg; simpl app; unfold take_sign.
    - rewrite Ascii.eqb_refl. reflexivity.
    - rewrite Hminus, Hplus. reflexivity. }
  rewrite Hsign, (take_numeral_digits _ Hdigits).
  rewrite drop_underscores_plain
    by (eapply Forall_impl; [exact Hdigits|];
        intros c Hc; apply (digit_is_plain c Hc)).
  apply Z.ltb_ge in Hlen. rewrite Hlen.
  destruct cs as [|c cs]; [contradiction|reflexivity].
Qed.

(** The text of an integer: a minus sign when it is negative, then the
    digits of its absolute value, at least one and no more than it
    has. *)
Lemma str_of_int_chars (n : Z) :
  exists cs,
    cs <> []
    /\ Forall (fun c => isdigit c = true) cs
    /\ digits_value (map (fun c => code c - 48) cs) = Z.abs n
    /\ 10 ^ (Z.of_nat (length cs) - 1) <= Z.max 1 (Z.abs n)
    /\ str_of_int n
       = string_of_list_ascii ((if n <? 0 then ["-"%char] else []) ++ cs).
Proof.
  assert (Hpos : forall p, exists cs,
             cs <> []
             /\ Forall (fun c => isdigit c = true) cs
             /\ digits_value (map (fun c => code c - 48) cs) = Z.pos p
             /\ 10 ^ (Z.of_nat (length cs) - 1) <= Z.max 1 (Z.pos p)
             /\ pretty (N.pos p) = string_of_list_ascii cs).
  { intros p.
    destruct (pretty_N_go_digits (N.pos p) EmptyString)
      as (cs & Hlist & Hdigits & Hvalue & _ & Hne).
    destruct Hne as [Hne Hlen]; [reflexivity|].
    exists cs. split; [exact Hne|]. split; [exact Hdigits|].
    split; [|split].
    - unfold digits_value. rewrite Hvalue. reflexivity.
    - change (Z.of_N (N.pos p)) with (Z.pos p) in Hlen. lia.
    - simpl in Hlist. rewrite app_nil_r in Hlist. rewrite <- Hlist.
      rewrite string_of_list_ascii_of_string.
      unfold pretty, pretty_N. destruct (decide _); [discriminate|reflexivity]. }
  destruct n as [|p|p].
  - exists ["0"%char]. split; [discriminate|].
    split; [constructor; [reflexivity|constructor]|].
    split; [reflexivity|]. split; [vm_compute; discriminate|reflexivity].
  - destruct (Hpos p) as (cs & Hne & Hdigits & Hvalue & Hlen & Hs).
    exists cs. repeat split; assumption.
  - destruct (Hpos p) as (cs & Hne & Hdigits & Hvalue & Hlen & Hs).
    exists cs. repeat split; try assumption.
    unfold str_of_int, pretty, pretty_Z. fold (pretty (N.pos p)).
    simpl. change (pretty p) with (pretty (N.pos p)). rewrite Hs. reflexivity.
Qed.

(** [int(str(n))] is [n], for [n] of at most 4300 digits. *)
Lemma int_of_str_of_int (n : Z) :
  Z.abs n < 10 ^ max_str_digits -> int_of_str (str_of_int n) = Returns n.
Proof.
  intros Hn.
  destruct (str_of_int_chars n) as (cs & Hne & Hdigits & Hvalue & Hlen & ->).
  rewrite (int_of_str_digits (n <? 0) cs Hne Hdigits).
  - cbv zeta. rewrite Hvalue. f_equal.
    destruct (Z.ltb_spec n 0); lia.
  - assert (H : 10 ^ (Z.of_nat (length cs) - 1) < 10 ^ max_str_digits).
    { eapply Z.le_lt_trans; [exact Hlen|].
      apply Z.max_lub_lt; [reflexivity|exact Hn]. }
    apply Z.pow_lt_mono_r_iff in H; [lia|lia|discriminate].
Qed.

Lemma str_of_int_no_x (n : Z) :
  has_char "x"%char (list_ascii_of_string (str_of_int n)) = false.
Proof.
  destruct (str_of_int_chars n) as (cs & _ & Hdigits & _ & _ & ->).
  rewrite list_ascii_of_string_of_list_ascii.
  unfold has_char. rewrite existsb_app. apply orb_false_iff. split.
  - destruct (n <? 0); reflexivity.
  - induction Hdigits as [|c cs Hc _ IH]; [reflexivity|].
    change (existsb (Ascii.eqb "x"%char) (c :: cs))
      with (Ascii.eqb "x"%char c || existsb (Ascii.eqb "x"%char) cs).
    rewrite IH, orb_false_r.
    destruct (digit_is_plain c Hc) as (_ & _ & Hx & _).
    rewrite Ascii.eqb_sym. exact Hx.
Qed.

(** The scale filter of a resolution written as two integers of at most
    4300 digits. *)
Lemma scale_decimal (width height : Z) :
  Z.abs width < 10 ^ max_str_digits -> Z.abs height < 10 ^ max_str_digits ->
  scale (str_of_int width +:+ "x" +:+ str_of_int height)
  = Returns ("scale=" +:+ str_of_int width +:+ ":" +:+ str_of_int height).
Proof.
  intros Hw Hh. unfold scale, split.
  rewrite list_ascii_of_string_app.
  change (list_ascii_of_string ("x" +:+ str_of_int height))
    with ("x"%char :: list_ascii_of_string (str_of_int height)).
  rewrite (split_chars_one _ _ _ (str_of_int_no_x width) (str_of_int_no_x height)).
  simpl map. rewrite !string_of_list_ascii_of_string.
  rewrite (int_of_str_of_int _ Hw), (int_of_str_of_int _ Hh). reflexivity.
Qed.

(** ** The keyword arguments *)

Section OutputArgs.

Variables (input output : string) (vb ab res : option string).

Local Abbreviation request := (thread input output vb ab res).

Ltac args_cases :=
  unfold thread, output_args; simpl;
  destruct (truthy vb); destruct (truthy ab); destruct (truthy res) as [r|];
  simpl; try (destruct (scale r) eqn:Hscale; simpl).

Lemma truthy_resolution (a b : string) :
  truthy (Some (a +:+ "x" +:+ b)) = Some (a +:+ "x" +:+ b).
Proof. destruct a; reflexivity. Qed.

Ltac prepare :=
  unfold thread, output_args;
  cbn [output_format video_bitrate audio_bitrate resolution].

(** C3, as amended. For every format of VIDEO: without a resolution
    ([None] or the empty text), and with a resolution of which [scale]
    makes a filter, the preparation returns arguments that hold the video
    codec [libx264] and the audio codec [aac]; with a resolution that
    [scale] refuses, the preparation raises what [scale] raises, and there
    are no arguments. A resolution written as two integers of at most 4300
    digits around an [x] is one of which [scale] makes a filter. For every
    format of AUDIO the preparation returns, and the arguments hold neither
    a video codec nor a scale filter, whatever the bitrates and the
    resolution. *)
Theorem codecs_by_format_class :
  Forall (fun fmt =>
    (res = None \/ res = Some EmptyString ->
       has_video_codecs (output_args (request fmt)))
    /\ (forall r vf, res = Some r -> scale r = Returns vf ->
          has_video_codecs (output_args (request fmt)))
    /\ (forall r e, res = Some r -> r <> EmptyString -> scale r = Raises e ->
          output_args (request fmt) = Raises e)
    /\ (forall width height,
          Z.abs width < 10 ^ max_str_digits ->
          Z.abs height < 10 ^ max_str_digits ->
          has_video_codecs
            (output_args
               (thread input output vb ab
                  (Some (str_of_int width +:+ "x" +:+ str_of_int height))
                  fmt)))) VIDEO
  /\
  Forall (fun fmt =>
    exists args, output_args (request fmt) = Returns args
      /\ args !! "vcodec" = None /\ args !! "vf" = None) AUDIO.
Proof.
  split.
  - repeat match goal with
           | |- Forall _ _ => constructor
           end.
    all: split; [|split; [|split]].
    all: try (intros [->| ->]; prepare; simpl;
              destruct (truthy vb); destruct (truthy ab);
              eexists; repeat split; reflexivity).
    all: try (intros r vf -> Hscale; prepare; simpl;
              destruct (String.eqb r EmptyString); simpl; rewrite ?Hscale;
              destruct (truthy vb); destruct (truthy ab);
              eexists; repeat split; reflexivity).
    all: try (intros r e -> Hr Hscale; apply String.eqb_neq in Hr;
              prepare; simpl; rewrite Hr; simpl; rewrite Hscale;
              destruct (truthy vb); destruct (truthy ab); reflexivity).
    all: intros width height Hw Hh; prepare;
      rewrite truthy_resolution, (scale_decimal _ _ Hw Hh); simpl;
      destruct (truthy vb); destruct (truthy ab);
      eexists; repeat split; reflexivity.
  - repeat constructor.
    all: args_cases; eauto.
Qed.

(** C4, as amended. [mp3] sets the audio codec [libmp3lame], [ogg] sets
    [libvorbis] and [aac] sets [aac]; [wav] and [flac] set no audio codec,
    which leaves the choice to the container. *)
Theorem audio_codec_by_format :
  (exists args, output_args (request "mp3") = Returns args
     /\ args !! "acodec" = Some "libmp3lame")
  /\ (exists args, output_args (request "ogg") = Returns args
     /\ args !! "acodec" = Some "libvorbis")
  /\ (exists args, output_args (request "aac") = Returns args
     /\ args !! "acodec" = Some "aac")
  /\ Forall (fun fmt =>
       exists args, output_args (request fmt) = Returns args
         /\ args !! "acodec" = None) ["wav"; "flac"].
Proof.
  repeat split; repeat constructor.
  all: args_cases; eauto.
Qed.

Ltac keeps_cases :=
  destruct ab as [b|]; unfold truthy;
  [destruct (String.eqb_spec b EmptyString) as [->|Hb]|];
  simpl;
  (eexists; split; [reflexivity|]; split;
   [intros b' Hb' Hne; try discriminate Hb'; injection Hb' as <-;
    try contradiction; reflexivity
   |intros [Hb'|Hb']; try discriminate Hb'; try injection Hb' as ->;
    try contradiction; reflexivity]).

(** C5, as amended. For every format of AUDIO the preparation returns,
    and returns what it returns without video bitrate and resolution. The
    arguments that it returns hold the audio bitrate of the thread when
    this is a text that is not empty, and none when it is [None] or the
    empty text: this for every format of AUDIO, and for every format of
    VIDEO without a resolution or with one of which [scale] makes a
    filter. For a format of VIDEO with a resolution that [scale] refuses
    the preparation raises, and no audio bitrate is kept. *)
Theorem video_fields_ignored_for_audio :
  Forall (fun fmt =>
    output_args (request fmt)
      = output_args (thread input output None ab None fmt)
    /\ keeps_audio_bitrate ab (output_args (request fmt))) AUDIO
  /\
  Forall (fun fmt =>
    (res = None \/ res = Some EmptyString ->
       keeps_audio_bitrate ab (output_args (request fmt)))
    /\ (forall r vf, res = Some r -> scale r = Returns vf ->
          keeps_audio_bitrate ab (output_args (request fmt)))
    /\ (forall r e, res = Some r -> r <> EmptyString -> scale r = Raises e ->
          output_args (request fmt) = Raises e)) VIDEO.
Proof.
  split.
  - repeat match goal with
           | |- Forall _ _ => constructor
           end.
    all: split;
      [args_cases; reflexivity
      |prepare; simpl; destruct (truthy vb); destruct (truthy res);
       keeps_cases].
  - repeat match goal with
           | |- Forall _ _ => constructor
           end.
    all: split; [|split].
    all: try (intros [->| ->]; prepare; simpl; destruct (truthy vb);
              keeps_cases).
    all: try (intros r vf -> Hscale; prepare; simpl;
              destruct (String.eqb r EmptyString); simpl; rewrite ?Hscale;
              simpl; destruct (truthy vb); keeps_cases).
    all: intros r e -> Hr Hscale; apply String.eqb_neq in Hr;
      prepare; simpl; rewrite Hr; simpl; rewrite Hscale;
      destruct (truthy vb); destruct (truthy ab); reflexivity.
Qed.

(** A format outside VIDEO and AUDIO is refused, whatever the other
    fields. *)
Lemma output_args_unsupported (fmt : string) :
  is_in fmt VIDEO = false -> is_in fmt AUDIO = false ->
  output_args (request fmt)
    = Raises (ValueError ("Unsupported output format: " +:+ fmt)).
Proof.
  intros Hv Ha. unfold thread, output_args. simpl output_format.
  rewrite Hv, Ha.
  destruct (truthy (video_bitrate _)), (truthy (audio_bitrate _)),
    (truthy (resolution _)); reflexivity.
Qed.

End OutputArgs.

(** C4, counterexample: for the format [aac] of AUDIO the arguments do
    hold an audio codec. *)
Lemma aac_sets_audio_codec :
  exists args,
    output_args (convert_to "aac") = Returns args
    /\ args !! "acodec" = Some "aac"
    /\ args !! "acodec" <> None.
Proof. eexists. split; [reflexivity|]. split; [reflexivity|discriminate]. Qed.

(** C3, counterexample. For the format [mp4] with the resolution
    [garbage] the preparation raises: there are no arguments, and no codec
    is set. *)
Lemma malformed_resolution_sets_no_codec :
  output_args (thread "in.avi" "out.mp4" (Some "5M") (Some "192k")
                 (Some "garbage") "mp4")
  = Raises (ValueError "invalid literal for int() with base 10: 'garbage'")
  /\ ~ has_video_codecs
         (output_args (thread "in.avi" "out.mp4" (Some "5M") (Some "192k")
                         (Some "garbage") "mp4")).
Proof.
  split; [vm_compute; reflexivity|].
  intros (args & H & _). vm_compute in H. discriminate H.
Qed.

(** C3, at the format [mp4] with the resolution [1280x720]. *)
Lemma codecs_scenario :
  has_video_codecs
    (output_args (thread "in.avi" "out.mp4" (Some "5M") (Some "192k")
                    (Some (str_of_int 1280 +:+ "x" +:+ str_of_int 720)) "mp4")).
Proof.
  apply (proj2 (proj2 (proj2 (List.Forall_inv (proj1
           (codecs_by_format_class "in.avi" "out.mp4" (Some "5M")
              (Some "192k") None)))))); vm_compute; reflexivity.
Defined.

(** C5, counterexample. For the format [mp4] with the resolution [1280]
    the preparation raises: the audio bitrate of the thread is in no
    arguments. *)
Lemma malformed_resolution_keeps_no_audio_bitrate :
  output_args (thread "in.avi" "out.mp4" None (Some "192k") (Some "1280") "mp4")
  = Raises (ValueError "not enough values to unpack (expected 2, got 1)")
  /\ ~ keeps_audio_bitrate (Some "192k")
         (output_args (thread "in.avi" "out.mp4" None (Some "192k")
                         (Some "1280") "mp4")).
Proof.
  split; [vm_compute; reflexivity|].
  intros (args & H & _). vm_compute in H. discriminate H.
Qed.

(** C5, at the format [mp4] without a resolution. *)
Lemma audio_bitrate_scenario :
  keeps_audio_bitrate (Some "192k")
    (output_args (thread "in.avi" "out.mp4" (Some "5M") (Some "192k") None "mp4")).
Proof.
  apply (proj1 (List.Forall_inv (proj2
           (video_fields_ignored_for_audio "in.avi" "out.mp4" (Some "5M")
              (Some "192k") None)))).
  left. reflexivity.
Defined.

Example scale_1280x720 : scale "1280x720" = Returns "scale=1280:720".
Proof. reflexivity. Qed.

Example output_args_mp4 :
  output_args (thread "in.avi" "out.mp4" (Some "5M") (Some "192k")
                 (Some "1280x720") "mp4")
  = Returns (<["acodec" := "aac"]> (<["vcodec" := "libx264"]>
      (<["vf" := "scale=1280:720"]> (<["audio_bitrate" := "192k"]>
        {["video_bitrate" := "5M"]})))).
Proof. reflexivity. Qed.

(** ** The loop and the run, case by case *)

Ltac unfold_runner :=
  unfold mbind, runner_bind, mret, runner_ret, lift, emit in *.

Lemma percentage_le_100 (d : float) (value : string) (p : Z) :
  percentage d value = Returns p -> p <= 100.
Proof.
  unfold percentage, mbind, outcome_bind.
  destruct (float_of_str value) as [x|]; [|discriminate].
  destruct (truediv x _) as [time|]; [|discriminate].
  destruct (truediv time d) as [ratio|]; [|discriminate].
  destruct (int_of_float _) as [n|]; [|discriminate].
  intros [= <-]. lia.
Qed.

(** A C [int] has 32 bits, and holds a number of 32 bits as it is. *)
Lemma c_int_range (z : Z) : - 2 ^ 31 <= c_int z < 2 ^ 31.
Proof.
  unfold c_int.
  change (2 ^ 31) with 2147483648. change (2 ^ 32) with 4294967296.
  pose proof (Z.mod_pos_bound (z + 2147483648) 4294967296 eq_refl). lia.
Qed.

Lemma c_int_small (z : Z) : - 2 ^ 31 <= z < 2 ^ 31 -> c_int z = z.
Proof.
  unfold c_int.
  change (2 ^ 31) with 2147483648. change (2 ^ 32) with 4294967296.
  intros H. rewrite Z.mod_small; lia.
Qed.

(** The signal of a percentage that a C [long long] holds. *)
Lemma emit_progress_fits (k : Z -> outcome Z) (p : Z) :
  - 2 ^ 63 <= p -> p <= 100 ->
  emit_progress k p = ([progress (c_int p)], Returns tt).
Proof.
  intros Hlo Hhi. unfold emit_progress, fits_long_long.
  apply Z.leb_le in Hlo. rewrite Hlo.
  assert (H : (p <? 2 ^ 63) = true).
  { apply Z.ltb_lt. change (2 ^ 63) with 9223372036854775808. lia. }
  rewrite H. reflexivity.
Qed.

(** The signal of a percentage from 0 to 100 carries it as it is. *)
Lemma emit_progress_percent (k : Z -> outcome Z) (p : Z) :
  0 <= p <= 100 -> emit_progress k p = ([progress p], Returns tt).
Proof.
  intros H. rewrite emit_progress_fits, c_int_small; [reflexivity| | |].
  - change (2 ^ 31) with 2147483648. lia.
  - change (2 ^ 63) with 9223372036854775808. lia.
  - lia.
Qed.

(** An emission gives one progress, a C [int], or raises. *)
Lemma emit_progress_cases (k : Z -> outcome Z) (p : Z) :
  (exists e, emit_progress k p = ([], Raises e))
  \/ (exists q, emit_progress k p = ([progress (c_int q)], Returns tt)).
Proof.
  unfold emit_progress. destruct (fits_long_long p); [right; eauto|].
  unfold_runner. destruct (k p) as [v|e]; simpl; eauto.
Qed.

(** A line gives no event or one progress, a C [int]. *)
Lemma parse_line_cases (k : Z -> outcome Z) (d : float) (output : string) :
  parse_line k d output = ([], Returns tt)
  \/ (exists e, parse_line k d output = ([], Raises e))
  \/ (exists q, parse_line k d output = ([progress (c_int q)], Returns tt)).
Proof.
  unfold parse_line.
  destruct (split _ output) as [|key [|value [|]]]; auto.
  destruct (String.eqb _ _); auto.
  destruct (percentage d (strip value)) as [p|e] eqn:Hp.
  - destruct (emit_progress_cases k p) as [[e H]|[q H]];
      unfold_runner; simpl; rewrite H; eauto.
  - right. left. exists e. reflexivity.
Qed.

Lemma read_loop_cons (k : Z -> outcome Z) (d : float) (r : outcome string)
  (reads : list (outcome string)) :
  read_loop k d (r :: reads) =
    match r with
    | Raises e => ([], Raises e)
    | Returns output =>
        if String.eqb output EmptyString then read_loop k d reads
        else match parse_line k d output with
             | (t, Returns _) =>
                 ((t ++ fst (read_loop k d reads))%list,
                  snd (read_loop k d reads))
             | (t, Raises e) => (t, Raises e)
             end
    end.
Proof.
  simpl. unfold_runner. destruct r as [output|e]; [|reflexivity].
  destruct (String.eqb output EmptyString).
  - destruct (read_loop k d reads); reflexivity.
  - destruct (parse_line k d output) as [t [[]|e]]; [|reflexivity].
    destruct (read_loop k d reads). reflexivity.
Qed.

(** The loop emits progress values only, each a C [int]. *)
Lemma read_loop_progress (k : Z -> outcome Z) (d : float)
  (reads : list (outcome string)) :
  exists ps, fst (read_loop k d reads) = map progress ps
    /\ Forall (fun p => - 2 ^ 31 <= p < 2 ^ 31) ps.
Proof.
  induction reads as [|r reads [ps [Hps Hle]]].
  - exists []. split; [reflexivity|constructor].
  - rewrite read_loop_cons. destruct r as [output|e].
    + destruct (String.eqb output EmptyString); [eauto|].
      destruct (parse_line_cases k d output) as [H|[[e H]|[q H]]]; rewrite H.
      * simpl. eauto.
      * exists []. split; [reflexivity|constructor].
      * exists (c_int q :: ps). simpl. rewrite Hps. split; [reflexivity|].
        constructor; [apply c_int_range|assumption].
    + exists []. split; [reflexivity|constructor].
Qed.

Lemma run_body_eq (w : world) (self : ConversionThread) :
  run_body w self =
    let file := input_file self in
    match preflight w file with
    | Raises e => ([probe_call file], Raises e)
    | Returns d =>
        match output_args self with
        | Raises e => ([probe_call file], Raises e)
        | Returns args =>
            let start := run_async_call file (output_file self) args in
            match run_async w file (output_file self) args with
            | Raises e => ([probe_call file; start], Raises e)
            | Returns proc =>
                match read_loop (marshal w) d (stderr proc) with
                | (t, Returns _) =>
                    (probe_call file :: start :: t
                       ++ [finished true "Conversion successful"],
                     Returns tt)
                | (t, Raises e) => (probe_call file :: start :: t, Raises e)
                end
            end
        end
    end.
Proof.
  unfold run_body. unfold_runner. simpl.
  destruct (preflight w (input_file self)) as [d|e]; [|reflexivity].
  destruct (output_args self) as [args|e]; [|reflexivity].
  destruct (run_async w _ _ args) as [proc|e]; [|reflexivity].
  destruct (read_loop _ d (stderr proc)) as [t [[]|e]]; reflexivity.
Qed.

Lemma run_eq (w : world) (self : ConversionThread) :
  run w self =
    match run_body w self with
    | (t, Returns _) => (t, Returns tt)
    | (t, Raises e) => ((t ++ [finished false (str e)])%list, Returns tt)
    end.
Proof.
  unfold run, try_except, emit.
  destruct (run_body w self) as [t [[]|e]]; reflexivity.
Qed.

(** The shape of every run: one or two calls, progress values that are C
    [int]s, one completion; the completion tells whether the body
    raised. *)
Lemma run_shape (w : world) (self : ConversionThread) :
  exists calls ps ok msg,
    run w self = ((calls ++ map progress ps ++ [finished ok msg])%list, Returns tt)
    /\ (calls = [probe_call (input_file self)]
        \/ exists args,
             output_args self = Returns args
             /\ calls = [probe_call (input_file self);
                         run_async_call (input_file self) (output_file self) args])
    /\ Forall (fun p => - 2 ^ 31 <= p < 2 ^ 31) ps
    /\ match snd (run_body w self) with
       | Returns _ => ok = true /\ msg = "Conversion successful"
       | Raises e => ok = false /\ msg = str e
       end.
Proof.
  rewrite run_eq, run_body_eq. cbv zeta.
  destruct (preflight w (input_file self)) as [d|e].
  2: { exists [probe_call (input_file self)], [], false, (str e).
       simpl. repeat split; auto. }
  destruct (output_args self) as [args|e] eqn:Hargs.
  2: { exists [probe_call (input_file self)], [], false, (str e).
       simpl. repeat split; auto. }
  set (calls := [probe_call (input_file self);
                 run_async_call (input_file self) (output_file self) args]).
  assert (Hcalls : exists args0, Returns args = Returns args0 /\ calls =
            [probe_call (input_file self);
             run_async_call (input_file self) (output_file self) args0])
    by (exists args; split; reflexivity).
  destruct (run_async w _ _ args) as [proc|e].
  2: { exists calls, [], false, (str e). simpl. repeat split; auto. }
  destruct (read_loop_progress (marshal w) d (stderr proc)) as [ps [Hps Hle]].
  destruct (read_loop _ d (stderr proc)) as [t [[]|e]]; simpl in Hps; subst t.
  - exists calls, ps, true, "Conversion successful". simpl. repeat split; auto.
  - exists calls, ps, false, (str e). simpl. repeat split; auto.
Qed.

Lemma notifications_app (t1 t2 : list event) :
  notifications (t1 ++ t2) = (notifications t1 ++ notifications t2)%list.
Proof. apply List.filter_app. Qed.

Lemma notifications_progress (ps : list Z) :
  notifications (map progress ps) = map progress ps.
Proof. induction ps; simpl; congruence. Qed.

Lemma percentages_app (t1 t2 : list event) :
  percentages (t1 ++ t2) = (percentages t1 ++ percentages t2)%list.
Proof. apply flat_map_app. Qed.


Lemma completions_app (t1 t2 : list event) :
  completions (t1 ++ t2) = (completions t1 ++ completions t2)%list.
Proof. apply flat_map_app. Qed.

Lemma completions_progress (ps : list Z) : completions (map progress ps) = [].
Proof. induction ps; simpl; congruence. Qed.

(** ** Lines of the diagnostic stream *)

(** A line [key=value] with no other equals sign splits in two. *)
Lemma split_key_value (key value : string) :
  has_char "="%char (list_ascii_of_string key) = false ->
  has_char "="%char (list_ascii_of_string value) = false ->
  split "="%char (key +:+ "=" +:+ value) = [key; value].
Proof.
  intros Hk Hv. unfold split.
  rewrite list_ascii_of_string_app.
  change (list_ascii_of_string ("=" +:+ value))
    with ("="%char :: list_ascii_of_string value).
  rewrite (split_chars_one _ _ _ Hk Hv). simpl.
  rewrite !string_of_list_ascii_of_string. reflexivity.
Qed.

Lemma key_value_not_empty (key value : string) :
  String.eqb (key +:+ "=" +:+ value) EmptyString = false.
Proof. destruct key; reflexivity. Qed.

(** What the loop does at an [out_time_ms] line. *)
Lemma read_loop_elapsed_time (k : Z -> outcome Z) (d : float)
  (key value : string) (reads : list (outcome string)) :
  has_char "="%char (list_ascii_of_string key) = false ->
  has_char "="%char (list_ascii_of_string value) = false ->
  strip key = "out_time_ms" ->
  read_loop k d (Returns (key +:+ "=" +:+ value) :: reads) =
    match percentage d (strip value) with
    | Returns p =>
        match emit_progress k p with
        | (t, Returns _) =>
            ((t ++ fst (read_loop k d reads))%list, snd (read_loop k d reads))
        | (t, Raises e) => (t, Raises e)
        end
    | Raises e => ([], Raises e)
    end.
Proof.
  intros Hk Hv Hkey.
  rewrite read_loop_cons, key_value_not_empty.
  unfold parse_line. rewrite (split_key_value _ _ Hk Hv), Hkey. simpl.
  unfold_runner. destruct (percentage d (strip value)); [|reflexivity].
  destruct (emit_progress k a) as [t [[]|e]]; reflexivity.
Qed.

Lemma read_loop_app (k : Z -> outcome Z) (d : float)
  (before after : list (outcome string)) :
  snd (read_loop k d before) = Returns tt ->
  read_loop k d (before ++ after) =
    ((fst (read_loop k d before) ++ fst (read_loop k d after))%list,
     snd (read_loop k d after)).
Proof.
  induction before as [|r before IH].
  - intros _. simpl. destruct (read_loop k d after); reflexivity.
  - rewrite <- app_comm_cons, !read_loop_cons.
    destruct r as [output|e]; [|discriminate].
    destruct (String.eqb output EmptyString); [exact IH|].
    destruct (parse_line k d output) as [t [[]|e]]; [|discriminate].
    simpl. intros H. rewrite (IH H). simpl. rewrite app_assoc. reflexivity.
Qed.

(** The percentage of a value that [float] reads, for a duration that is
    not zero. *)
Lemma percentage_eq (d x : float) (value : string) :
  float_of_str value = Returns x ->
  SFltb (S754_zero false) d = true ->
  percentage d value =
    n ← int_of_float
          (mul (SFdiv prec emax (SFdiv prec emax x (float_of_int 1000000)) d)
               (float_of_int 100));
    Returns (Z.min n 100).
Proof.
  intros Hx Hd. unfold percentage. rewrite Hx. simpl.
  destruct d as [| | |[] m e]; try discriminate; reflexivity.
Qed.

(** A run whose transcode starts: the two calls, what the loop emits, the
    completion. *)
Lemma run_started (w : world) (self : ConversionThread) (d : float)
  (args : gmap string string) (proc : process) :
  preflight w (input_file self) = Returns d ->
  output_args self = Returns args ->
  run_async w (input_file self) (output_file self) args = Returns proc ->
  run w self =
    (probe_call (input_file self)
       :: run_async_call (input_file self) (output_file self) args
       :: fst (read_loop (marshal w) d (stderr proc))
       ++ [completion (snd (read_loop (marshal w) d (stderr proc)))],
     Returns tt).
Proof.
  intros Hd Hargs Hproc.
  rewrite run_eq, run_body_eq. cbv zeta. rewrite Hd, Hargs, Hproc.
  destruct (read_loop _ d (stderr proc)) as [t [[]|e]]; reflexivity.
Qed.

(** ** Signs *)

Lemma binary_round_aux_not_negative (m e : Z) (l : location) :
  not_negative (binary_round_aux prec emax false m e l) = true.
Proof.
  unfold binary_round_aux.
  destruct (shr_fexp prec emax m e l) as [mrs' e'].
  destruct (shr_fexp prec emax _ e' loc_Exact) as [mrs'' e''].
  destruct (shr_m mrs''); [reflexivity| |reflexivity].
  destruct (e'' <=? emax - prec); reflexivity.
Qed.

Lemma SFdiv_not_negative (x y : float) :
  not_negative x = true -> SFltb (S754_zero false) y = true ->
  not_negative (SFdiv prec emax x y) = true.
Proof.
  destruct x as [sx|[]| |[] mx ex], y as [sy|[]| |[] my ey];
    try discriminate; try reflexivity.
  intros _ _. unfold SFdiv.
  destruct (SFdiv_core_binary _ _ _ _ _ _) as [[mz ez] lz].
  apply binary_round_aux_not_negative.
Qed.

Lemma SFmul_not_negative (x y : float) :
  not_negative x = true -> SFltb (S754_zero false) y = true ->
  not_negative (SFmul prec emax x y) = true.
Proof.
  destruct x as [sx|[]| |[] mx ex], y as [sy|[]| |[] my ey];
    try discriminate; try reflexivity.
  intros _ _. apply binary_round_aux_not_negative.
Qed.

Lemma int_of_float_not_negative (x : float) (n : Z) :
  not_negative x = true -> int_of_float x = Returns n -> 0 <= n.
Proof.
  destruct x as [s|s| |[] m e]; try discriminate.
  - intros _ [= <-]. lia.
  - intros _ [= <-]. apply Z.shiftl_nonneg. lia.
Qed.

Lemma percentage_not_negative (d x : float) (value : string) (p : Z) :
  SFltb (S754_zero false) d = true ->
  float_of_str value = Returns x -> not_negative x = true ->
  percentage d value = Returns p -> 0 <= p.
Proof.
  intros Hd Hx Hpos. rewrite (percentage_eq _ _ _ Hx Hd).
  unfold mbind, outcome_bind.
  destruct (int_of_float _) as [n|] eqn:Hn; [|discriminate].
  intros [= <-].
  apply int_of_float_not_negative in Hn; [lia|].
  apply SFmul_not_negative; [|reflexivity].
  apply SFdiv_not_negative; [|exact Hd].
  apply SFdiv_not_negative; [exact Hpos|reflexivity].
Qed.

(** With a duration above zero and no elapsed time below zero, the
    progress values of the loop are percentages. *)
Lemma read_loop_in_range (k : Z -> outcome Z) (d : float)
  (reads : list (outcome string)) :
  SFltb (S754_zero false) d = true -> no_negative_time reads ->
  Forall (fun p => 0 <= p <= 100) (percentages (fst (read_loop k d reads))).
Proof.
  intros Hd. induction 1 as [|r reads Hr _ IH]; [constructor|].
  rewrite read_loop_cons. destruct r as [output|e]; [|constructor].
  destruct (String.eqb output EmptyString); [exact IH|].
  unfold elapsed_time in Hr. unfold parse_line.
  destruct (split _ output) as [|key [|value [|]]]; try exact IH.
  destruct (String.eqb (strip key) _); [|exact IH].
  destruct (percentage d (strip value)) as [p|e] eqn:Hp; [|constructor].
  assert (Hrange : 0 <= p <= 100).
  { split; [|eapply percentage_le_100; eassumption].
    destruct (float_of_str (strip value)) as [x|e] eqn:Hx.
    - eapply percentage_not_negative; eassumption.
    - unfold percentage in Hp. rewrite Hx in Hp. discriminate. }
  unfold mbind, runner_bind, lift.
  rewrite (emit_progress_percent k p Hrange).
  simpl. constructor; [exact Hrange|exact IH].
Qed.

(** [int] of a finite float is the quotient, towards zero, of its exact
    value [m * 2 ^ e]. *)
Lemma int_of_float_toward_zero (s : bool) (m : positive) (e : Z) :
  int_of_float (S754_finite s m e)
    = Returns (Z.quot (cond_Zopp s (Z.pos m) * 2 ^ Z.max e 0)
                      (2 ^ Z.max (- e) 0)).
Proof.
  simpl. f_equal.
  assert (Hm : 0 <= Z.pos m) by lia.
  destruct (Z.le_gt_cases 0 e) as [He|He].
  - rewrite Z.shiftl_mul_pow2 by exact He.
    replace (Z.max e 0) with e by lia.
    replace (Z.max (- e) 0) with 0 by lia.
    rewrite Z.pow_0_r, Z.quot_1_r.
    destruct s; simpl; lia.
  - rewrite Z.shiftl_div_pow2 by lia.
    replace (Z.max e 0) with 0 by lia.
    replace (Z.max (- e) 0) with (- e) by lia.
    rewrite Z.pow_0_r, Z.mul_1_r.
    assert (Hp : 0 < 2 ^ (- e)) by (apply Z.pow_pos_nonneg; lia).
    destruct s; simpl.
    + change (Z.neg m) with (- Z.pos m).
      rewrite Z.quot_opp_l by lia.
      rewrite Z.quot_div_nonneg by lia. reflexivity.
    + rewrite Z.quot_div_nonneg by lia. reflexivity.
Qed.

(** ** The runner *)

(** C9. The notifications of every run are progress updates, none or
    more, followed by one completion, which is the last notification. *)
Theorem progress_then_one_completion (w : world) (self : ConversionThread) :
  exists ps ok msg,
    notifications (fst (run w self)) = (map progress ps ++ [finished ok msg])%list.
Proof.
  destruct (run_shape w self) as (calls & ps & ok & msg & Hrun & Hcalls & _).
  exists ps, ok, msg. rewrite Hrun. simpl fst.
  rewrite !notifications_app, notifications_progress.
  destruct Hcalls as [->|(args & _ & ->)]; reflexivity.
Qed.

(** C2. No exception leaves [run]. When the body of the [try] raises,
    from the probe, from the preparation of the arguments or from the
    transcode, the run ends with a failure completion that carries the
    text of the exception, and that is its only completion. When the
    probe fails, the run is the call of the probe and that failure: the
    transcode is not started. *)
Theorem exceptions_become_one_failure (w : world) (self : ConversionThread) :
  snd (run w self) = Returns tt
  /\ match snd (run_body w self) with
     | Raises e =>
         (exists t, fst (run w self) = (t ++ [finished false (str e)])%list)
         /\ completions (fst (run w self)) = [(false, str e)]
     | Returns _ => fst (run w self) = fst (run_body w self)
     end
  /\ match preflight w (input_file self) with
     | Raises e =>
         fst (run w self) = [probe_call (input_file self); finished false (str e)]
     | Returns _ => True
     end.
Proof.
  split; [|split].
  - destruct (run_shape w self) as (? & ? & ? & ? & -> & _). reflexivity.
  - destruct (run_shape w self) as (calls & ps & ok & msg & Hrun & Hcalls & _ & Hok).
    rewrite run_eq in *. destruct (run_body w self) as [t [[]|e]]; simpl in *.
    + reflexivity.
    + destruct Hok as [-> ->]. split; [eauto|].
      injection Hrun as ->.
      rewrite !completions_app, completions_progress.
      destruct Hcalls as [->|(args & _ & ->)]; reflexivity.
  - rewrite run_eq, run_body_eq. cbv zeta.
    destruct (preflight w (input_file self)); reflexivity || exact I.
Qed.

(** C1, as amended. The exit status of the transcoder has no part in a
    run. When the body of the [try] does not raise, whatever the exit
    status, the run ends with the success completion; it ends with a
    failure completion when the body raises. *)
Theorem exit_status_ignored (w : world) (self : ConversionThread) (rc : Z) :
  run (set_returncode rc w) self = run w self
  /\ match snd (run_body w self) with
     | Returns _ =>
         exists t, fst (run w self)
                   = (t ++ [finished true "Conversion successful"])%list
     | Raises e =>
         exists t, fst (run w self) = (t ++ [finished false (str e)])%list
     end.
Proof.
  split.
  - rewrite !run_eq, !run_body_eq. unfold preflight. simpl.
    destruct (_ ← probe w (input_file self); _) as [d|e]; [|reflexivity].
    destruct (output_args self) as [args|e]; [|reflexivity].
    unfold mbind, outcome_bind.
    destruct (run_async w _ _ args) as [proc|e]; reflexivity.
  - destruct (run_shape w self) as (calls & ps & ok & msg & Hrun & _ & _ & Hok).
    rewrite Hrun. simpl fst.
    destruct (snd (run_body w self)); destruct Hok as [-> ->];
      eexists; rewrite app_assoc; reflexivity.
Qed.

(** The progress values of a run whose transcode starts are those of the
    loop. *)
Lemma run_percentages (w : world) (self : ConversionThread) :
  percentages (fst (run w self)) =
    match preflight w (input_file self), output_args self with
    | Returns d, Returns args =>
        match run_async w (input_file self) (output_file self) args with
        | Returns proc => percentages (fst (read_loop (marshal w) d (stderr proc)))
        | Raises _ => []
        end
    | _, _ => []
    end.
Proof.
  rewrite run_eq, run_body_eq. cbv zeta.
  destruct (preflight w (input_file self)) as [d|e]; [|reflexivity].
  destruct (output_args self) as [args|e]; [|reflexivity].
  destruct (run_async w _ _ args) as [proc|e]; [|reflexivity].
  destruct (read_loop _ d (stderr proc)) as [t [[]|e]]; simpl;
    rewrite percentages_app; simpl; rewrite app_nil_r; reflexivity.
Qed.

(** With a probed duration above zero and no elapsed time below zero,
    the progress values of a run are percentages. *)
Lemma run_in_range (w : world) (self : ConversionThread) :
  (forall d, preflight w (input_file self) = Returns d ->
             SFltb (S754_zero false) d = true) ->
  (forall args proc,
     run_async w (input_file self) (output_file self) args = Returns proc ->
     no_negative_time (stderr proc)) ->
  Forall (fun p => 0 <= p <= 100) (percentages (fst (run w self))).
Proof.
  intros Hd Hreads. rewrite run_percentages.
  destruct (preflight w (input_file self)) as [d|e]; [|constructor].
  destruct (output_args self) as [args|e]; [|constructor].
  destruct (run_async w _ _ args) as [proc|e] eqn:Hproc; [|constructor].
  exact (read_loop_in_range _ d (stderr proc)
           (Hd d eq_refl) (Hreads args proc Hproc)).
Qed.


(** C8, as amended. A format outside VIDEO and AUDIO is refused by the
    preparation of the arguments, whatever the other fields. In a run the
    probe is called first: when it succeeds the run ends with that refusal
    and the transcode is not started; when it fails the run ends with the
    failure of the probe. *)
Theorem unsupported_format_fails_after_probe
  (w : world) (self : ConversionThread) :
  is_in (output_format self) VIDEO = false ->
  is_in (output_format self) AUDIO = false ->
  let refusal := "Unsupported output format: " +:+ output_format self in
  output_args self = Raises (ValueError refusal)
  /\ run w self =
       match preflight w (input_file self) with
       | Returns _ => ([probe_call (input_file self); finished false refusal], Returns tt)
       | Raises e => ([probe_call (input_file self); finished false (str e)], Returns tt)
       end.
Proof.
  intros Hv Ha refusal.
  assert (Hargs : output_args self = Raises (ValueError refusal)).
  { destruct self. apply output_args_unsupported; assumption. }
  split; [exact Hargs|].
  rewrite run_eq, run_body_eq. cbv zeta. rewrite Hargs.
  destruct (preflight w (input_file self)); reflexivity.
Qed.

(** C6, as amended. Take a line [key=value] of the diagnostic stream that
    the loop reaches, whose key is [out_time_ms] and whose value [float]
    reads as [x], and a probed duration [d] above zero. Let [y] be the
    binary64 number [x / 1000000 / d * 100]. When [int(y)] is [n], the
    integer part of [y] towards zero, the percentage is [min n 100]: when
    a C [long long] holds it ([- 2 ^ 63 <= n]) the run emits for this
    line the progress value that is its low 32 bits, which is [min n 100]
    itself from [- 2 ^ 31] on, after what the lines before emit, and goes
    on with the lines after; the one completion comes last. (For a lesser
    [n] the world tells what PyQt emits.) When [int(y)] raises ([y] is
    infinite or not a number), the run ends at this line with the failure
    completion. *)
Theorem progress_of_elapsed_time
  (w : world) (self : ConversionThread) (args : gmap string string)
  (proc : process) (before after : list (outcome string))
  (d x : float) (key value : string) :
  preflight w (input_file self) = Returns d ->
  SFltb (S754_zero false) d = true ->
  output_args self = Returns args ->
  run_async w (input_file self) (output_file self) args = Returns proc ->
  stderr proc = (before ++ Returns (key +:+ "=" +:+ value) :: after)%list ->
  snd (read_loop (marshal w) d before) = Returns tt ->
  has_char "="%char (list_ascii_of_string key) = false ->
  has_char "="%char (list_ascii_of_string value) = false ->
  strip key = "out_time_ms" ->
  float_of_str (strip value) = Returns x ->
  let y := mul (SFdiv prec emax (SFdiv prec emax x (float_of_int 1000000)) d)
               (float_of_int 100) in
  match int_of_float y with
  | Returns n =>
      run w self =
        (probe_call (input_file self)
           :: run_async_call (input_file self) (output_file self) args
           :: fst (read_loop (marshal w) d before)
           ++ match (if - 2 ^ 63 <=? n then Returns (Z.min n 100)
                     else marshal w (Z.min n 100)) with
              | Returns v =>
                  progress (c_int v)
                    :: fst (read_loop (marshal w) d after)
                    ++ [completion (snd (read_loop (marshal w) d after))]
              | Raises e => [finished false (str e)]
              end,
         Returns tt)
      /\ (- 2 ^ 31 <= n -> c_int (Z.min n 100) = Z.min n 100)
  | Raises e =>
      run w self =
        (probe_call (input_file self)
           :: run_async_call (input_file self) (output_file self) args
           :: fst (read_loop (marshal w) d before)
           ++ [finished false (str e)],
         Returns tt)
  end.
Proof.
  intros Hd Hpos Hargs Hproc Herr Hbefore Hk Hv Hkey Hx y.
  rewrite (run_started _ _ _ _ _ Hd Hargs Hproc), Herr.
  rewrite (read_loop_app _ _ _ _ Hbefore).
  rewrite (read_loop_elapsed_time _ _ _ _ _ Hk Hv Hkey).
  rewrite (percentage_eq _ _ _ Hx Hpos). fold y.
  destruct (int_of_float y) as [n|e]; simpl.
  2: { rewrite app_nil_r. reflexivity. }
  split.
  - unfold emit_progress, fits_long_long.
    assert (Hhi : (Z.min n 100 <? 2 ^ 63) = true).
    { apply Z.ltb_lt. change (2 ^ 63) with 9223372036854775808. lia. }
    rewrite Hhi, andb_true_r.
    assert (Hlo : (- 2 ^ 63 <=? Z.min n 100) = (- 2 ^ 63 <=? n)).
    { change (2 ^ 63) with 9223372036854775808.
      destruct (Z.leb_spec (- 9223372036854775808) n),
        (Z.leb_spec (- 9223372036854775808) (Z.min n 100));
        try reflexivity; lia. }
    rewrite Hlo. destruct (- 2 ^ 63 <=? n).
    + simpl. rewrite <- !app_assoc. reflexivity.
    + unfold_runner. destruct (marshal w (Z.min n 100)) as [v|e]; simpl.
      * rewrite <- !app_assoc. reflexivity.
      * rewrite app_nil_r. reflexivity.
  - intros Hn. apply c_int_small.
    change (2 ^ 31) with 2147483648 in *. lia.
Qed.

(** C10. Take a line [key=value] of the diagnostic stream that the loop
    reaches, whose key is [out_time_ms] and whose value [float] does not
    read. The run emits what the lines before emit and ends there with the
    failure completion that carries the text of the exception: the lines
    after emit nothing, and there is no success completion, whatever the
    exit status of the transcoder. *)
Theorem unreadable_elapsed_time_fails_run
  (w : world) (self : ConversionThread) (args : gmap string string)
  (proc : process) (before after : list (outcome string))
  (d : float) (key value : string) (e : exn) :
  preflight w (input_file self) = Returns d ->
  output_args self = Returns args ->
  run_async w (input_file self) (output_file self) args = Returns proc ->
  stderr proc = (before ++ Returns (key +:+ "=" +:+ value) :: after)%list ->
  snd (read_loop (marshal w) d before) = Returns tt ->
  has_char "="%char (list_ascii_of_string key) = false ->
  has_char "="%char (list_ascii_of_string value) = false ->
  strip key = "out_time_ms" ->
  float_of_str (strip value) = Raises e ->
  run w self =
    (probe_call (input_file self)
       :: run_async_call (input_file self) (output_file self) args
       :: fst (read_loop (marshal w) d before)
       ++ [finished false (str e)],
     Returns tt).
Proof.
  intros Hd Hargs Hproc Herr Hbefore Hk Hv Hkey Hx.
  rewrite (run_started _ _ _ _ _ Hd Hargs Hproc), Herr.
  rewrite (read_loop_app _ _ _ _ Hbefore).
  rewrite (read_loop_elapsed_time _ _ _ _ _ Hk Hv Hkey).
  unfold percentage. rewrite Hx. simpl.
  rewrite app_nil_r. reflexivity.
Qed.

(** ** Scenarios *)

(** C6, the scenario of the specification: with a duration of 100 seconds
    the line [out_time_ms=50000000] gives the progress value 50, and after
    the end of the stream one success completion follows. *)
Lemma progress_scenario :
  run (scripted "100.000000" ["out_time_ms=50000000" +:+ newline] 0)
      (convert_to "mp3")
  = ([probe_call "in.avi";
      run_async_call "in.avi" "out.mp3"
        (<["acodec" := "libmp3lame"]> {["audio_bitrate" := "192k"]});
      progress 50;
      finished true "Conversion successful"],
     Returns tt).
Proof.
  refine (proj1 (progress_of_elapsed_time
           (scripted "100.000000" ["out_time_ms=50000000" +:+ newline] 0)
           (convert_to "mp3")
           (<["acodec" := "libmp3lame"]> {["audio_bitrate" := "192k"]})
           {| stderr := [Returns ("out_time_ms=50000000" +:+ newline)];
              returncode := 0 |}
           [] [] (float_of_int 100) (float_of_int 50000000)
           "out_time_ms" ("50000000" +:+ newline)
           _ _ _ _ _ _ _ _ _ _));
    vm_compute; reflexivity.
Defined.

(** C6, counterexample. With a duration of 100 seconds the line
    [out_time_ms=-1] gives the progress value 0, where the floor of
    [-1 / 1000000 / 100 * 100] is -1; with a duration of 1 second the line
    [out_time_ms=290000] gives 28, where the floor of the exact quotient
    is 29. *)
Lemma elapsed_time_not_floored :
  percentages
    (fst (run (scripted "100.000000" ["out_time_ms=-1" +:+ newline] 0)
              (convert_to "mp3"))) = [0]
  /\ percentage_spec (-1 # 1) (100 # 1) = -1
  /\ percentages
       (fst (run (scripted "1.000000" ["out_time_ms=290000" +:+ newline] 0)
                 (convert_to "mp3"))) = [28]
  /\ percentage_spec (290000 # 1) (1 # 1) = 29.
Proof. repeat split; vm_compute; reflexivity. Qed.

(** C1, counterexample. The transcoder ends with the exit status 1 and
    nothing raises in the runner: the completion is the success one. *)
Lemma nonzero_exit_reported_as_success :
  run_async (scripted "100.000000" [] 1) "in.avi" "out.mp3"
      (<["acodec" := "libmp3lame"]> {["audio_bitrate" := "192k"]})
    = Returns {| stderr := []; returncode := 1 |}
  /\ snd (run_body (scripted "100.000000" [] 1) (convert_to "mp3")) = Returns tt
  /\ run (scripted "100.000000" [] 1) (convert_to "mp3")
     = ([probe_call "in.avi";
         run_async_call "in.avi" "out.mp3"
           (<["acodec" := "libmp3lame"]> {["audio_bitrate" := "192k"]});
         finished true "Conversion successful"],
        Returns tt).
Proof. repeat split; vm_compute; reflexivity. Qed.


(** C8, counterexample. For the format [xyz] the probe is called before
    the format is refused; and when the probe fails, the run ends with the
    failure of the probe, not with the refusal of the format. *)
Lemma unsupported_format_probes_first :
  run (scripted "100.000000" [] 0) (convert_to "xyz")
  = ([probe_call "in.avi"; finished false "Unsupported output format: xyz"],
     Returns tt)
  /\ run (unreadable "ffprobe error (see stderr output for detail)")
         (convert_to "xyz")
     = ([probe_call "in.avi";
         finished false "ffprobe error (see stderr output for detail)"],
        Returns tt).
Proof. split; vm_compute; reflexivity. Qed.

(** C8, at the format [xyz]. *)
Lemma unsupported_format_xyz :
  output_args (convert_to "xyz")
    = Raises (ValueError "Unsupported output format: xyz")
  /\ run (scripted "100.000000" [] 0) (convert_to "xyz")
     = ([probe_call "in.avi"; finished false "Unsupported output format: xyz"],
        Returns tt).
Proof.
  exact (unsupported_format_fails_after_probe
           (scripted "100.000000" [] 0) (convert_to "xyz") eq_refl eq_refl).
Defined.

(** C10, at the line [out_time_ms=N/A]: the run ends with a failure after
    the progress value 50, although a line that reads follows and the
    transcoder ends with the exit status 0. *)
Lemma not_available_elapsed_time_fails_run :
  run (scripted "100.000000"
         ["out_time_ms=50000000" +:+ newline;
          "out_time_ms=N/A" +:+ newline;
          "out_time_ms=90000000" +:+ newline] 0)
      (convert_to "mp3")
  = ([probe_call "in.avi";
      run_async_call "in.avi" "out.mp3"
        (<["acodec" := "libmp3lame"]> {["audio_bitrate" := "192k"]});
      progress 50;
      finished false "could not convert string to float: 'N/A'"],
     Returns tt).
Proof.
  apply (unreadable_elapsed_time_fails_run
           (scripted "100.000000"
              ["out_time_ms=50000000" +:+ newline;
               "out_time_ms=N/A" +:+ newline;
               "out_time_ms=90000000" +:+ newline] 0)
           (convert_to "mp3")
           (<["acodec" := "libmp3lame"]> {["audio_bitrate" := "192k"]})
           {| stderr := map Returns
                          ["out_time_ms=50000000" +:+ newline;
                           "out_time_ms=N/A" +:+ newline;
                           "out_time_ms=90000000" +:+ newline];
              returncode := 0 |}
           [Returns ("out_time_ms=50000000" +:+ newline)]
           [Returns ("out_time_ms=90000000" +:+ newline)]
           (float_of_int 100) "out_time_ms" ("N/A" +:+ newline)
           (ValueError "could not convert string to float: 'N/A'"));
    vm_compute; reflexivity.
Defined.


(** * The window *)

(** ** What a session keeps *)

#[local] Arguments is_in : simpl never.

Lemma is_in_cons (x y : string) (l : list string) :
  is_in x (y :: l) = true -> x = y \/ is_in x l = true.
Proof.
  unfold is_in. simpl. intros H. apply orb_true_iff in H as [H|H]; [|auto].
  left. apply String.eqb_eq. exact H.
Qed.

(** Case analysis on an item of a list of literals. *)
Ltac items H :=
  repeat (apply is_in_cons in H as [->|H]); [..|discriminate H].

(** The notifications of every run: progress values, then one
    completion. *)
Lemma run_notifications (w : world) (t : ConversionThread) :
  exists ps ok msg,
    notifications (fst (run w t)) = (map progress ps ++ [finished ok msg])%list
    /\ match snd (run_body w t) with
       | Returns _ => ok = true /\ msg = "Conversion successful"
       | Raises e => ok = false /\ msg = str e
       end.
Proof.
  destruct (run_shape w t) as (calls & ps & ok & msg & Hrun & Hcalls & Hle & Hok).
  exists ps, ok, msg. rewrite Hrun. simpl fst.
  rewrite !notifications_app, notifications_progress.
  split; [|assumption].
  destruct Hcalls as [->|(args & _ & ->)]; reflexivity.
Qed.

Lemma consistent_initUI :
  exists self, Window.initUI = Some self /\ Window.consistent self.
Proof.
  eexists. split; [reflexivity|].
  constructor; simpl; try reflexivity.
  - exists "mp4". split; reflexivity.
  - discriminate.
Qed.

Lemma consistent_select_input_file (answer : string)
  (self : Window.MediaConverterGUI) :
  Window.consistent self ->
  Window.consistent (Window.select_input_file answer self).
Proof.
  intros []. unfold Window.select_input_file. simpl.
  destruct (String.eqb answer EmptyString); constructor; assumption.
Qed.

Lemma consistent_pick_format (item : string) (self : Window.MediaConverterGUI) :
  Window.consistent self -> is_in item Window.format_items = true ->
  exists self',
    Window.update_visible_options (Window.set_format_combo item self) = Some self'
    /\ Window.consistent self'.
Proof.
  intros [] Hitem. unfold Window.format_items in Hitem. items Hitem.
  all: eexists; split; [reflexivity|].
  all: constructor; try assumption; try reflexivity.
  all: eexists; split; reflexivity.
Qed.

Lemma video_bitrate_item_truthy (b : string) :
  is_in b Window.video_bitrate_items = true -> truthy (Some b) = Some b.
Proof. intros H. unfold Window.video_bitrate_items in H. items H; reflexivity. Qed.

Lemma audio_bitrate_item_truthy (b : string) :
  is_in b Window.audio_bitrate_items = true -> truthy (Some b) = Some b.
Proof. intros H. unfold Window.audio_bitrate_items in H. items H; reflexivity. Qed.

(** The format that the window reads off an item of its format box. *)
Lemma first_word_format_item (item : string) :
  is_in item Window.format_items = true ->
  exists fmt, Window.first_word item = Some fmt
    /\ is_in fmt (VIDEO ++ AUDIO) = true.
Proof.
  intros H. unfold Window.format_items in H. items H.
  all: eexists; split; reflexivity.
Qed.

Lemma consistent_start_conversion (answer : string) (w : world)
  (self : Window.MediaConverterGUI) :
  Window.consistent self -> Window.convert_button self = true ->
  exists self',
    Window.start_conversion answer w self = Some self'
    /\ Window.consistent self'.
Proof.
  intros [Hf Hvb Hab Hres (fmt & Hfmt & Hvis) Hsig Hthr] Hbutton.
  destruct self as [inf outf il fc vbc abc rc v1 v2 v3 v4 btn bar st th sg]; simpl in *. subst btn.
  unfold Window.start_conversion. simpl.
  destruct (String.eqb inf EmptyString).
  { eexists. split; [reflexivity|]. constructor; simpl; eauto. }
  rewrite Hfmt. simpl.
  destruct (String.eqb answer EmptyString).
  { eexists. split; [reflexivity|]. constructor; simpl; eauto. }
  eexists. split; [reflexivity|].
  injection Hvis as -> -> -> ->.
  constructor; simpl; eauto.
  - rewrite Hsig. simpl.
    destruct (run_notifications w
                (Build_ConversionThread inf answer fmt
                   (if is_in fmt VIDEO then Some vbc else None)
                   (Some abc)
                   (if is_in fmt VIDEO then Some rc else None)))
      as (ps & ok & msg & Hn & _).
    exists ps, ok, msg. assumption.
  - intros t [= <-]. unfold Window.built_from_items. simpl.
    destruct (first_word_format_item _ Hf) as (fmt' & Hfmt' & Hsup).
    rewrite Hfmt in Hfmt'. injection Hfmt' as <-.
    split; [exact Hsup|]. split; [eauto|].
    destruct (is_in fmt VIDEO); [split; eauto|auto].
Qed.

Lemma consistent_handle (a : Window.action) (self : Window.MediaConverterGUI) :
  Window.consistent self ->
  exists self', Window.handle a self = Some self' /\ Window.consistent self'.
Proof.
  intros Hself. destruct a as [answer|item|item|item|item|answer w|]; simpl.
  - eexists. split; [reflexivity|].
    apply consistent_select_input_file. exact Hself.
  - destruct (is_in item Window.format_items) eqn:Hitem; simpl; [|eauto].
    destruct (negb _); [|eauto].
    apply consistent_pick_format; assumption.
  - eexists. split; [reflexivity|].
    destruct (is_in item _) eqn:Hitem; [|exact Hself].
    destruct Hself, self. constructor; assumption.
  - eexists. split; [reflexivity|].
    destruct (is_in item _) eqn:Hitem; [|exact Hself].
    destruct Hself, self. constructor; assumption.
  - eexists. split; [reflexivity|].
    destruct (is_in item _) eqn:Hitem; [|exact Hself].
    destruct Hself, self. constructor; assumption.
  - destruct (Window.convert_button self) eqn:Hbutton; [|eauto].
    apply consistent_start_conversion; assumption.
  - destruct Hself as [Hf Hvb Hab Hres Hvis Hsig Hthr].
    destruct self as [inf outf il fc vbc abc rc v1 v2 v3 v4 btn bar st th sg]; simpl in *.
    destruct btn.
    { subst sg. eexists. split; [reflexivity|].
      constructor; simpl; auto. }
    destruct Hsig as (ps & ok & msg & ->).
    destruct ps as [|p ps]; simpl.
    + eexists. split; [reflexivity|].
      unfold Window.conversion_finished. simpl.
      destruct ok; constructor; simpl; auto.
    + eexists. split; [reflexivity|].
      constructor; simpl; eauto.
Qed.

Lemma consistent_handle_all (actions : list Window.action)
  (self : Window.MediaConverterGUI) :
  Window.consistent self ->
  exists self',
    Window.handle_all actions self = Some self' /\ Window.consistent self'.
Proof.
  revert self. induction actions as [|a actions IH]; intros self Hself; simpl.
  - eauto.
  - destruct (consistent_handle a self Hself) as (self1 & -> & Hself1).
    simpl. apply IH. exact Hself1.
Qed.

Lemma consistent_session (actions : list Window.action) :
  exists self, Window.session actions = Some self /\ Window.consistent self.
Proof.
  unfold Window.session.
  destruct consistent_initUI as (self0 & -> & Hself0). simpl.
  apply consistent_handle_all. exact Hself0.
Qed.

(** A thread built from the items has arguments: its format is
    supported, and its resolution, when it has one, gives a scale
    filter. *)
Lemma built_from_items_output_args (t : ConversionThread) :
  Window.built_from_items t -> exists args, output_args t = Returns args.
Proof.
  destruct t as [i o fmt vb ab res].
  unfold Window.built_from_items.
  cbn [output_format video_bitrate audio_bitrate resolution].
  intros (Hfmt & (b & -> & Hb) & Hrest).
  unfold output_args.
  cbn [output_format video_bitrate audio_bitrate resolution].
  rewrite (audio_bitrate_item_truthy _ Hb).
  change (VIDEO ++ AUDIO)%list
    with ["mp4"; "avi"; "mkv"; "webm"; "mov"; "flv";
          "mp3"; "wav"; "flac"; "ogg"; "aac"] in Hfmt.
  items Hfmt.
  1-6: destruct Hrest as [(vb' & -> & Hvb) (r & -> & Hr)];
       rewrite (video_bitrate_item_truthy _ Hvb);
       unfold Window.resolution_items in Hr; items Hr;
       eexists; reflexivity.
  all: destruct Hrest as [-> ->]; eexists; reflexivity.
Qed.

Lemma last_cons_default (z p : Z) (ps : list Z) :
  List.last (z :: ps) p = List.last ps z.
Proof.
  revert z p. induction ps as [|q ps IH]; intros z p; [reflexivity|].
  change (List.last (z :: q :: ps) p) with (List.last (q :: ps) p).
  rewrite !IH. reflexivity.
Qed.

Lemma deliver_all (ps : list Z) (ok : bool) (msg : string)
  (self : Window.MediaConverterGUI) :
  Window.signals self = (map progress ps ++ [finished ok msg])%list ->
  exists self',
    Window.handle_all (repeat Window.deliver (S (length ps))) self = Some self'
    /\ Window.convert_button self' = true
    /\ Window.signals self' = []
    /\ Window.status_label self'
       = (if ok then "Conversion completed successfully."
          else "Conversion failed: " +:+ msg)
    /\ Window.progress_bar self'
       = match ps with
         | [] => Window.progress_bar self
         | p :: ps' => Some (List.last ps' p)
         end.
Proof.
  revert self. induction ps as [|p ps IH]; intros self Hsig.
  - simpl in *. rewrite Hsig. simpl. eexists. split; [reflexivity|].
    unfold Window.conversion_finished. destruct ok; simpl; auto.
  - change (repeat Window.deliver (S (length (p :: ps))))
      with (Window.deliver :: repeat Window.deliver (S (length ps))).
    simpl Window.handle_all. simpl in Hsig. rewrite Hsig. simpl.
    destruct (IH (Window.update_progress p
                    (Window.set_signals (map progress ps ++ [finished ok msg])%list
                       self)) eq_refl)
      as (self' & Hall & Hbutton & Hsignals & Hstatus & Hbar).
    exists self'. repeat split; try assumption.
    rewrite Hbar. destruct ps as [|z ps]; [reflexivity|].
    rewrite last_cons_default. reflexivity.
Qed.

(** The progress values among the notifications. *)
Lemma percentages_notifications (t : list event) :
  percentages (notifications t) = percentages t.
Proof.
  induction t as [|[] t IH]; simpl; congruence.
Qed.

(** In a well timed world the values of the bar stay percentages. *)
Lemma bar_values_handle (a : Window.action)
  (self self' : Window.MediaConverterGUI) :
  Window.well_timed_action a ->
  Window.handle a self = Some self' ->
  Forall (fun p => 0 <= p <= 100) (Window.bar_values self) ->
  Forall (fun p => 0 <= p <= 100) (Window.bar_values self').
Proof.
  intros Ha Hh H.
  destruct self as [inf outf il fc vbc abc rc v1 v2 v3 v4 btn bar st th sg].
  unfold Window.bar_values in *. simpl in H.
  destruct a as [answer|item|item|item|item|answer w|]; simpl in Hh.
  - injection Hh as <-. unfold Window.select_input_file. simpl.
    destruct (String.eqb answer EmptyString); exact H.
  - destruct (is_in item Window.format_items && _); [|injection Hh as <-; exact H].
    unfold Window.update_visible_options in Hh. simpl in Hh.
    destruct (Window.first_word item); [|discriminate].
    injection Hh as <-. exact H.
  - injection Hh as <-. destruct (is_in item _); exact H.
  - injection Hh as <-. destruct (is_in item _); exact H.
  - injection Hh as <-. destruct (is_in item _); exact H.
  - destruct btn; [|injection Hh as <-; exact H].
    unfold Window.start_conversion in Hh. simpl in Hh.
    destruct (String.eqb inf EmptyString); [injection Hh as <-; exact H|].
    destruct (Window.first_word fc) as [fmt|]; [|discriminate]. simpl in Hh.
    destruct (String.eqb answer EmptyString); [injection Hh as <-; exact H|].
    injection Hh as <-. simpl.
    rewrite percentages_app, percentages_notifications.
    apply Forall_app in H as [_ H].
    constructor; [lia|]. apply Forall_app. split; [exact H|].
    destruct Ha as [Hd Hreads]. apply run_in_range.
    + intros d. apply Hd.
    + intros args proc. apply Hreads.
  - destruct sg as [|[file|i o args|p|ok msg] rest]; injection Hh as <-; simpl in *.
    + exact H.
    + exact H.
    + exact H.
    + apply Forall_app in H as [_ H]. exact H.
    + unfold Window.conversion_finished. simpl. destruct ok; exact H.
Qed.

Lemma bar_values_handle_all (actions : list Window.action)
  (self self' : Window.MediaConverterGUI) :
  Forall Window.well_timed_action actions ->
  Window.handle_all actions self = Some self' ->
  Forall (fun p => 0 <= p <= 100) (Window.bar_values self) ->
  Forall (fun p => 0 <= p <= 100) (Window.bar_values self').
Proof.
  intros Hactions. revert self.
  induction Hactions as [|a actions Ha _ IH]; intros self Hh H; simpl in Hh.
  - injection Hh as <-. exact H.
  - destruct (Window.handle a self) as [self1|] eqn:Hh1; [|discriminate].
    simpl in Hh. apply (IH self1 Hh).
    exact (bar_values_handle a self self1 Ha Hh1 H).
Qed.

(** ** The window, action after action *)

(** X1. After [initUI] and any list of actions no method of the window
    has raised, and the four widgets of the video options are visible
    exactly when the first word of the selected format is a format of
    VIDEO. *)
Theorem video_options_follow_format (actions : list Window.action) :
  exists self fmt,
    Window.session actions = Some self
    /\ Window.first_word (Window.format_combo self) = Some fmt
    /\ Window.video_options self = repeat (is_in fmt VIDEO) 4.
Proof.
  destruct (consistent_session actions) as (self & Hs & Hself).
  destruct (Window.options_follow_format _ Hself) as (fmt & Hfmt & Hvis).
  exists self, fmt. auto.
Qed.

(** X2. After [initUI] and any list of actions: when the [Convert] button
    is enabled no signal of a thread is on its way to the window; when it
    is not, what is on its way is progress values followed by exactly one
    completion. *)
Theorem button_disabled_while_converting (actions : list Window.action) :
  exists self,
    Window.session actions = Some self
    /\ if Window.convert_button self then Window.signals self = []
       else exists ps ok msg,
              Window.signals self = (map progress ps ++ [finished ok msg])%list.
Proof.
  destruct (consistent_session actions) as (self & Hs & Hself).
  exists self. split; [exact Hs|].
  exact (Window.button_follows_thread _ Hself).
Qed.

(** X3. The thread of the window, after [initUI] and any list of
    actions, has a supported format, a video bitrate and a resolution
    exactly when its format is a format of VIDEO, and arguments:
    [output_args] returns for it. *)
Theorem window_thread_has_arguments (actions : list Window.action)
  (self : Window.MediaConverterGUI) (t : ConversionThread) :
  Window.session actions = Some self ->
  Window.conversion_thread self = Some t ->
  is_in (output_format t) (VIDEO ++ AUDIO) = true
  /\ (video_bitrate t = None <-> is_in (output_format t) VIDEO = false)
  /\ (resolution t = None <-> is_in (output_format t) VIDEO = false)
  /\ exists args, output_args t = Returns args.
Proof.
  intros Hs Ht.
  destruct (consistent_session actions) as (self' & Hs' & Hself).
  rewrite Hs in Hs'. injection Hs' as <-.
  pose proof (Window.thread_built_from_items _ Hself t Ht) as Hbuilt.
  split; [apply Hbuilt|].
  split; [|split; [|apply built_from_items_output_args; exact Hbuilt]].
  all: destruct Hbuilt as (_ & _ & Hrest);
    destruct (is_in (output_format t) VIDEO).
  - destruct Hrest as [(b & -> & _) _]. split; discriminate.
  - destruct Hrest as [-> _]. split; reflexivity.
  - destruct Hrest as [_ (r & -> & _)]. split; discriminate.
  - destruct Hrest as [_ ->]. split; reflexivity.
Qed.

(** X4. After [initUI] and any list of actions whose conversions run in
    well timed worlds (the probed durations are above zero and no line
    reports an elapsed time below zero), a value handed to the progress
    bar lies between 0 and 100. *)
Theorem progress_bar_is_percentage (actions : list Window.action)
  (self : Window.MediaConverterGUI) (v : Z) :
  Forall Window.well_timed_action actions ->
  Window.session actions = Some self ->
  Window.progress_bar self = Some v ->
  0 <= v <= 100.
Proof.
  intros Hactions Hs Hv. unfold Window.session in Hs.
  destruct Window.initUI as [self0|] eqn:Hinit; [|discriminate].
  injection Hinit as <-. simpl in Hs.
  assert (H : Forall (fun p => 0 <= p <= 100) (Window.bar_values self)).
  { eapply bar_values_handle_all; [exact Hactions|exact Hs|constructor]. }
  unfold Window.bar_values in H. rewrite Hv in H.
  inversion H. assumption.
Qed.

(** X5. Take the window after [initUI] and any list of actions, with the
    [Convert] button enabled and an input file. A click on [Convert]
    with a path from the save dialog disables the button, shows
    [Converting...] and starts a thread; once the signals of the thread
    are delivered the button is enabled again, and the status tells how
    the body of [run] ended: completed, or failed with the text of the
    exception. *)
Theorem conversion_ends_with_status (actions : list Window.action)
  (self : Window.MediaConverterGUI) (answer : string) (w : world) :
  Window.session actions = Some self ->
  Window.convert_button self = true ->
  Window.input_file self <> EmptyString ->
  answer <> EmptyString ->
  exists t self1 self2,
    Window.handle (Window.click_convert answer w) self = Some self1
    /\ Window.conversion_thread self1 = Some t
    /\ Window.convert_button self1 = false
    /\ Window.status_label self1 = "Converting..."
    /\ Window.handle_all
         (repeat Window.deliver (length (Window.signals self1))) self1
       = Some self2
    /\ Window.convert_button self2 = true
    /\ Window.status_label self2
       = match snd (run_body w t) with
         | Returns _ => "Conversion completed successfully."
         | Raises e => "Conversion failed: " +:+ str e
         end.
Proof.
  intros Hs Hbutton Hinput Hanswer.
  destruct (consistent_session actions) as (self' & Hs' & Hself).
  rewrite Hs in Hs'. injection Hs' as <-.
  destruct (Window.options_follow_format _ Hself) as (fmt & Hfmt & Hvis).
  pose proof (Window.button_follows_thread _ Hself) as Hsig.
  rewrite Hbutton in Hsig.
  apply String.eqb_neq in Hinput, Hanswer.
  simpl. rewrite Hbutton. unfold Window.start_conversion.
  rewrite Hinput, Hfmt. simpl. rewrite Hanswer, Hsig. simpl.
  match goal with
  | |- context [run w ?t0] => set (t := t0)
  end.
  destruct (run_notifications w t) as (ps & ok & msg & Hn & Hok).
  match goal with
  | |- context [Some ?s = Some _] => set (self1 := s)
  end.
  destruct (deliver_all ps ok msg self1 Hn)
    as (self2 & Hall & Hb2 & _ & Hstatus & _).
  exists t, self1, self2.
  split; [reflexivity|]. split; [reflexivity|].
  split; [reflexivity|]. split; [reflexivity|].
  split; [|split; [exact Hb2|]].
  - change (Window.signals self1) with (notifications (fst (run w t))).
    rewrite Hn, length_app, length_map, Nat.add_1_r. exact Hall.
  - rewrite Hstatus.
    destruct (snd (run_body w t)); destruct Hok as [-> ->]; reflexivity.
Qed.

(** X6. When the dialog of [Select File] is cancelled after a file was
    selected, the window forgets the file while its label still names it,
    and a click on [Convert] only asks for an input file. *)
Theorem cancelled_dialog_forgets_input (self : Window.MediaConverterGUI)
  (path answer : string) (w : world) :
  path <> EmptyString ->
  let self' :=
    Window.select_input_file EmptyString
      (Window.select_input_file path self) in
  Window.input_file self' = EmptyString
  /\ Window.input_label self' = "Input File: " +:+ Window.basename path
  /\ Window.start_conversion answer w self'
     = Some (Window.set_status_label "Please select an input file." self').
Proof.
  intros Hpath. apply String.eqb_neq in Hpath.
  unfold Window.select_input_file. simpl. rewrite Hpath. simpl.
  repeat split.
Qed.

(** X7. After [initUI] and any list of actions, a click on [Convert]
    without an input file, or with the save dialog cancelled, starts
    nothing: the thread, the queued signals, the button and the progress
    bar stay as they are. *)
Theorem convert_needs_both_paths (actions : list Window.action)
  (self : Window.MediaConverterGUI) (answer : string) (w : world) :
  Window.session actions = Some self ->
  Window.input_file self = EmptyString \/ answer = EmptyString ->
  exists self',
    Window.handle (Window.click_convert answer w) self = Some self'
    /\ Window.conversion_thread self' = Window.conversion_thread self
    /\ Window.signals self' = Window.signals self
    /\ Window.convert_button self' = Window.convert_button self
    /\ Window.progress_bar self' = Window.progress_bar self.
Proof.
  intros Hs Hpaths.
  destruct (consistent_session actions) as (self' & Hs' & Hself).
  rewrite Hs in Hs'. injection Hs' as <-.
  destruct (Window.options_follow_format _ Hself) as (fmt & Hfmt & _).
  simpl. destruct (Window.convert_button self) eqn:Hbutton.
  2: { exists self. rewrite Hbutton. repeat split. }
  unfold Window.start_conversion.
  destruct (String.eqb (Window.input_file self) EmptyString) eqn:Hinput.
  { eexists. split; [reflexivity|]. simpl. rewrite Hbutton. repeat split. }
  destruct Hpaths as [Hi| ->].
  { rewrite Hi in Hinput. discriminate. }
  rewrite Hfmt. simpl. eexists. split; [reflexivity|].
  simpl. rewrite Hbutton. repeat split.
Qed.

(** * More of [run] *)

(** ** The probe *)

(** X8. When the metadata of the probe lacks the key [format], or its
    [format] lacks the key [duration], the run is the call of the probe
    and a failure whose message is the key between quotes: the transcode
    is not started. *)
Theorem missing_metadata_fails_run (w : world) (self : ConversionThread)
  (info : gmap string (gmap string string)) :
  probe w (input_file self) = Returns info ->
  (info !! "format") ≫= (fun format => format !! "duration") = None ->
  run w self =
    ([probe_call (input_file self);
      finished false
        (match info !! "format" with
         | None => "'format'"
         | Some _ => "'duration'"
         end)],
     Returns tt).
Proof.
  intros Hprobe Hkeys.
  rewrite run_eq, run_body_eq. cbv zeta.
  unfold preflight. rewrite Hprobe. simpl. unfold getitem.
  destruct (info !! "format") as [format|]; simpl in *; [|reflexivity].
  rewrite Hkeys. reflexivity.
Qed.

(** ** The loop *)

(** X9. When the probed duration is zero, the run fails at the first
    [out_time_ms] line whose value [float] reads, with the message of the
    division by zero; the lines after emit nothing. *)
Theorem zero_duration_fails_at_first_time
  (w : world) (self : ConversionThread) (args : gmap string string)
  (proc : process) (before after : list (outcome string))
  (s : bool) (x : float) (key value : string) :
  preflight w (input_file self) = Returns (S754_zero s) ->
  output_args self = Returns args ->
  run_async w (input_file self) (output_file self) args = Returns proc ->
  stderr proc = (before ++ Returns (key +:+ "=" +:+ value) :: after)%list ->
  snd (read_loop (marshal w) (S754_zero s) before) = Returns tt ->
  has_char "="%char (list_ascii_of_string key) = false ->
  has_char "="%char (list_ascii_of_string value) = false ->
  strip key = "out_time_ms" ->
  float_of_str (strip value) = Returns x ->
  run w self =
    (probe_call (input_file self)
       :: run_async_call (input_file self) (output_file self) args
       :: fst (read_loop (marshal w) (S754_zero s) before)
       ++ [finished false "float division by zero"],
     Returns tt).
Proof.
  intros Hd Hargs Hproc Herr Hbefore Hk Hv Hkey Hx.
  rewrite (run_started _ _ _ _ _ Hd Hargs Hproc), Herr.
  rewrite (read_loop_app _ _ _ _ Hbefore).
  rewrite (read_loop_elapsed_time _ _ _ _ _ Hk Hv Hkey).
  unfold percentage. rewrite Hx. simpl.
  rewrite app_nil_r. reflexivity.
Qed.

Lemma split_chars_length (sep : ascii) (cs : list ascii) :
  length (split_chars sep cs) = S (count_occ ascii_dec cs sep).
Proof.
  induction cs as [|c cs IH]; [reflexivity|].
  simpl. destruct (Ascii.eqb c sep) eqn:Hc.
  - apply Ascii.eqb_eq in Hc. subst c.
    destruct (ascii_dec sep sep); [|contradiction].
    simpl. rewrite IH. reflexivity.
  - apply Ascii.eqb_neq in Hc.
    destruct (ascii_dec c sep); [contradiction|].
    destruct (split_chars sep cs); simpl in *; [discriminate IH|exact IH].
Qed.

(** X10. A line in which the equals sign does not occur exactly once (no
    sign, or several, as in [frame= 10 fps=0.0]) is passed over: the loop
    goes on with the next read as if the line was not there. *)
Theorem line_without_one_equals_sign_ignored (k : Z -> outcome Z)
  (d : float) (line : string) (reads : list (outcome string)) :
  count_occ ascii_dec (list_ascii_of_string line) "="%char <> 1%nat ->
  read_loop k d (Returns line :: reads) = read_loop k d reads.
Proof.
  intros Hcount. rewrite read_loop_cons.
  destruct (String.eqb line EmptyString); [reflexivity|].
  assert (Hparse : parse_line k d line = ([], Returns tt)).
  { unfold parse_line, split.
    pose proof (split_chars_length "="%char (list_ascii_of_string line)) as Hlen.
    destruct (split_chars _ _) as [|a [|b [|]]]; try reflexivity.
    simpl in Hlen. injection Hlen as Hlen. congruence. }
  rewrite Hparse. simpl. destruct (read_loop k d reads). reflexivity.
Qed.

(** X11. A line [key=value] whose key is not [out_time_ms] is passed
    over, whatever its value (read by [float] or not). *)
Theorem line_with_other_key_ignored (k : Z -> outcome Z) (d : float)
  (key value : string) (reads : list (outcome string)) :
  has_char "="%char (list_ascii_of_string key) = false ->
  has_char "="%char (list_ascii_of_string value) = false ->
  strip key <> "out_time_ms" ->
  read_loop k d (Returns (key +:+ "=" +:+ value) :: reads)
  = read_loop k d reads.
Proof.
  intros Hk Hv Hkey. apply String.eqb_neq in Hkey.
  rewrite read_loop_cons, key_value_not_empty.
  unfold parse_line. rewrite (split_key_value _ _ Hk Hv), Hkey. simpl.
  destruct (read_loop k d reads). reflexivity.
Qed.

(** ** The scale filter *)

(** X12. For all integers [width] and [height] of at most 4300 digits,
    the resolution written [<width>x<height>] gives the scale filter
    [scale=<width>:<height>]: the numbers come back as they were
    written. *)
Theorem scale_of_width_and_height (width height : Z) :
  Z.abs width < 10 ^ max_str_digits ->
  Z.abs height < 10 ^ max_str_digits ->
  scale (str_of_int width +:+ "x" +:+ str_of_int height)
  = Returns ("scale=" +:+ str_of_int width +:+ ":" +:+ str_of_int height).
Proof. exact (scale_decimal width height). Qed.

(** ** The keyword arguments, once more *)

(** X13. For every format of VIDEO, when the preparation returns, the
    arguments hold the video bitrate exactly when the thread has one, and
    the scale filter of the resolution exactly when the thread has a
    resolution. *)
Theorem video_fields_kept_for_video
  (input output : string) (vb ab res : option string) :
  Forall (fun fmt =>
    forall args,
      output_args (thread input output vb ab res fmt) = Returns args ->
      args !! "video_bitrate" = truthy vb
      /\ args !! "vf"
         = match truthy res with
           | Some r => match scale r with
                       | Returns vf => Some vf
                       | Raises _ => None
                       end
           | None => None
           end) VIDEO.
Proof.
  repeat match goal with
         | |- Forall _ _ => constructor
         end.
  all: intros args; unfold thread, output_args; simpl;
    destruct (truthy vb); destruct (truthy ab); destruct (truthy res) as [r|];
    simpl; try (destruct (scale r); simpl);
    try discriminate; intros [= <-]; split; reflexivity.
Qed.

(** X14. Whatever the thread, the arguments that the preparation returns
    hold no key besides the video bitrate, the audio bitrate, the filter
    and the two codecs. *)
Theorem output_args_keys (self : ConversionThread) (args : gmap string string)
  (key value : string) :
  output_args self = Returns args ->
  args !! key = Some value ->
  In key ["video_bitrate"; "audio_bitrate"; "vf"; "vcodec"; "acodec"].
Proof.
  destruct self as [i o fmt vb ab res]. unfold output_args. simpl.
  destruct (truthy vb); destruct (truthy ab); destruct (truthy res) as [r|];
    destruct (is_in fmt VIDEO); simpl; try (destruct (scale r); simpl);
    destruct (is_in fmt AUDIO); destruct (String.eqb fmt "mp3");
    destruct (String.eqb fmt "ogg"); destruct (String.eqb fmt "aac");
    intros Hargs; try discriminate Hargs; injection Hargs as <-; intros Hkey.
  all: repeat (rewrite lookup_insert in Hkey;
               destruct (decide _) as [<-|_] in Hkey; [simpl; tauto|]).
  all: rewrite lookup_empty in Hkey; discriminate Hkey.
Qed.

Lemma read_loop_length (k : Z -> outcome Z) (d : float)
  (reads : list (outcome string)) :
  (length (percentages (fst (read_loop k d reads))) <= length reads)%nat.
Proof.
  induction reads as [|r reads IH]; [reflexivity|].
  rewrite read_loop_cons. destruct r as [output|e]; simpl; [|lia].
  destruct (String.eqb output EmptyString); [lia|].
  destruct (parse_line_cases k d output) as [H|[[e H]|[q H]]]; rewrite H;
    simpl; lia.
Qed.

(** X15. A run emits at most one progress value for each read of the
    diagnostic stream. *)
Theorem at_most_one_progress_per_read (w : world) (self : ConversionThread)
  (args : gmap string string) (proc : process) :
  output_args self = Returns args ->
  run_async w (input_file self) (output_file self) args = Returns proc ->
  (length (percentages (fst (run w self))) <= length (stderr proc))%nat.
Proof.
  intros Hargs Hproc. rewrite run_eq, run_body_eq. cbv zeta.
  rewrite Hargs, Hproc.
  destruct (preflight w (input_file self)) as [d|e]; [|simpl; lia].
  pose proof (read_loop_length (marshal w) d (stderr proc)) as Hlen.
  destruct (read_loop _ d (stderr proc)) as [t [[]|e]]; simpl in *;
    rewrite percentages_app; simpl; rewrite app_nil_r; exact Hlen.
Qed.

(** * Scenarios of the window and of the run *)

(** X3, at the thread of a conversion to [mp3]. *)
Lemma window_thread_scenario :
  exists self t,
    Window.session convert_to_mp3 = Some self
    /\ Window.conversion_thread self = Some t
    /\ t = Build_ConversionThread "/home/user/in.avi" "/home/user/out.mp3"
             "mp3" None (Some "192k") None
    /\ is_in (output_format t) (VIDEO ++ AUDIO) = true
    /\ (video_bitrate t = None <-> is_in (output_format t) VIDEO = false)
    /\ (resolution t = None <-> is_in (output_format t) VIDEO = false)
    /\ exists args, output_args t = Returns args.
Proof.
  eexists. eexists.
  split; [vm_compute; reflexivity|].
  split; [reflexivity|]. split; [reflexivity|].
  eapply (window_thread_has_arguments convert_to_mp3);
    vm_compute; reflexivity.
Defined.

(** X4, after the first signal of a conversion to [mp3]. *)
Lemma progress_bar_scenario :
  exists self,
    Window.session (convert_to_mp3 ++ [Window.deliver]) = Some self
    /\ Window.progress_bar self = Some 50
    /\ 0 <= 50 <= 100.
Proof.
  eexists. split; [vm_compute; reflexivity|]. split; [reflexivity|].
  eapply (progress_bar_is_percentage (convert_to_mp3 ++ [Window.deliver])).
  - repeat constructor.
    + intros file d H. vm_compute in H. injection H as <-. reflexivity.
    + intros input output args proc H. injection H as <-.
      repeat constructor; vm_compute; reflexivity.
  - vm_compute. reflexivity.
  - reflexivity.
Defined.

(** X5, at a conversion to [mp3]. *)
Lemma conversion_scenario :
  exists self,
    Window.session
      [Window.click_select_file "/home/user/in.avi";
       Window.pick_format "mp3 (Audio)"] = Some self
    /\ exists t self1 self2,
         Window.handle
           (Window.click_convert "/home/user/out.mp3"
              (scripted "100.000000" ["out_time_ms=50000000" +:+ newline] 0))
           self = Some self1
         /\ Window.conversion_thread self1 = Some t
         /\ Window.convert_button self1 = false
         /\ Window.status_label self1 = "Converting..."
         /\ Window.handle_all
              (repeat Window.deliver (length (Window.signals self1))) self1
            = Some self2
         /\ Window.convert_button self2 = true
         /\ Window.status_label self2
            = match snd (run_body
                           (scripted "100.000000"
                              ["out_time_ms=50000000" +:+ newline] 0) t) with
              | Returns _ => "Conversion completed successfully."
              | Raises e => "Conversion failed: " +:+ str e
              end.
Proof.
  eexists. split; [vm_compute; reflexivity|].
  eapply (conversion_ends_with_status
            [Window.click_select_file "/home/user/in.avi";
             Window.pick_format "mp3 (Audio)"]).
  - vm_compute. reflexivity.
  - reflexivity.
  - discriminate.
  - discriminate.
Defined.

(** X6, at a file selected and then a dialog cancelled. *)
Lemma cancelled_dialog_scenario :
  Window.input_file
    (Window.select_input_file EmptyString
       (Window.select_input_file "/home/user/in.avi" Window.widgets))
  = EmptyString
  /\ Window.input_label
       (Window.select_input_file EmptyString
          (Window.select_input_file "/home/user/in.avi" Window.widgets))
     = "Input File: in.avi"
  /\ Window.start_conversion "/home/user/out.mp3" (scripted "100.000000" [] 0)
       (Window.select_input_file EmptyString
          (Window.select_input_file "/home/user/in.avi" Window.widgets))
     = Some (Window.set_status_label "Please select an input file."
               (Window.select_input_file EmptyString
                  (Window.select_input_file "/home/user/in.avi"
                     Window.widgets))).
Proof.
  apply (cancelled_dialog_forgets_input Window.widgets "/home/user/in.avi"
           "/home/user/out.mp3" (scripted "100.000000" [] 0)).
  discriminate.
Defined.

(** X7, at a click on [Convert] before any file is selected. *)
Lemma convert_without_input_scenario :
  exists self self',
    Window.session [] = Some self
    /\ Window.handle
         (Window.click_convert "/home/user/out.mp3"
            (scripted "100.000000" [] 0)) self = Some self'
    /\ Window.conversion_thread self' = Window.conversion_thread self
    /\ Window.signals self' = Window.signals self
    /\ Window.convert_button self' = Window.convert_button self
    /\ Window.progress_bar self' = Window.progress_bar self.
Proof.
  eexists.
  destruct (convert_needs_both_paths [] _ "/home/user/out.mp3"
              (scripted "100.000000" [] 0) eq_refl (or_introl eq_refl))
    as (self' & Hh & Hrest).
  exists self'. split; [reflexivity|]. split; [exact Hh|exact Hrest].
Defined.

(** X8, at metadata whose [format] has no [duration]. *)
Lemma missing_duration_scenario :
  run (probed {[ "format" := ∅ ]}) (convert_to "mp3")
  = ([probe_call "in.avi"; finished false "'duration'"], Returns tt).
Proof.
  etransitivity.
  - apply (missing_metadata_fails_run (probed {[ "format" := ∅ ]})
             (convert_to "mp3") {[ "format" := ∅ ]}); reflexivity.
  - vm_compute. reflexivity.
Defined.

(** X9, at a probed duration of zero. *)
Lemma zero_duration_scenario :
  run (scripted "0.000000" ["out_time_ms=50000000" +:+ newline] 0)
      (convert_to "mp3")
  = ([probe_call "in.avi";
      run_async_call "in.avi" "out.mp3"
        (<["acodec" := "libmp3lame"]> {["audio_bitrate" := "192k"]});
      finished false "float division by zero"],
     Returns tt).
Proof.
  apply (zero_duration_fails_at_first_time
           (scripted "0.000000" ["out_time_ms=50000000" +:+ newline] 0)
           (convert_to "mp3")
           (<["acodec" := "libmp3lame"]> {["audio_bitrate" := "192k"]})
           {| stderr := [Returns ("out_time_ms=50000000" +:+ newline)];
              returncode := 0 |}
           [] [] false (float_of_int 50000000) "out_time_ms"
           ("50000000" +:+ newline));
    vm_compute; reflexivity.
Defined.

(** X10, at a line of statistics of the transcoder. *)
Lemma statistics_line_scenario :
  read_loop refused (float_of_int 100) [Returns "frame=   10 fps=0.0 q=28.0"]
  = ([], Returns tt).
Proof.
  apply (line_without_one_equals_sign_ignored refused (float_of_int 100)
           "frame=   10 fps=0.0 q=28.0" []).
  vm_compute. discriminate.
Defined.

(** X11, at a line with another key. *)
Lemma other_key_scenario :
  read_loop refused (float_of_int 100) [Returns "progress=continue"]
  = ([], Returns tt).
Proof.
  apply (line_with_other_key_ignored refused (float_of_int 100)
           "progress" "continue" []).
  - reflexivity.
  - reflexivity.
  - vm_compute. discriminate.
Defined.

(** X12, at the resolution [1280x720]. *)
Lemma scale_scenario :
  scale (str_of_int 1280 +:+ "x" +:+ str_of_int 720)
  = Returns ("scale=" +:+ str_of_int 1280 +:+ ":" +:+ str_of_int 720).
Proof.
  apply (scale_of_width_and_height 1280 720); vm_compute; reflexivity.
Defined.

(** X13, at the format [mp4] with a video bitrate and a resolution. *)
Lemma video_fields_scenario :
  (<["acodec" := "aac"]> (<["vcodec" := "libx264"]>
     (<["vf" := "scale=1280:720"]> (<["audio_bitrate" := "192k"]>
        ({["video_bitrate" := "5M"]} : gmap string string)))))
    !! "video_bitrate" = Some "5M"
  /\ (<["acodec" := "aac"]> (<["vcodec" := "libx264"]>
        (<["vf" := "scale=1280:720"]> (<["audio_bitrate" := "192k"]>
           ({["video_bitrate" := "5M"]} : gmap string string)))))
       !! "vf" = Some "scale=1280:720".
Proof.
  exact (List.Forall_inv
           (video_fields_kept_for_video "in.avi" "out.mp4" (Some "5M")
              (Some "192k") (Some "1280x720"))
           (<["acodec" := "aac"]> (<["vcodec" := "libx264"]>
              (<["vf" := "scale=1280:720"]> (<["audio_bitrate" := "192k"]>
                 {["video_bitrate" := "5M"]}))))
           eq_refl).
Defined.

(** X14, at the audio codec of a conversion to [mp3]. *)
Lemma output_args_keys_scenario :
  In "acodec" ["video_bitrate"; "audio_bitrate"; "vf"; "vcodec"; "acodec"].
Proof.
  apply (output_args_keys (convert_to "mp3")
           (<["acodec" := "libmp3lame"]> {["audio_bitrate" := "192k"]})
           "acodec" "libmp3lame"); reflexivity.
Defined.

(** X15, at a stream of three reads, one of them an elapsed time. *)
Lemma progress_per_read_scenario :
  (length
     (percentages
        (fst (run (scripted "100.000000"
                     ["frame=   10 fps=0.0 q=28.0";
                      "out_time_ms=50000000" +:+ newline;
                      "progress=continue"] 0)
                  (convert_to "mp3"))))
   <= 3)%nat.
Proof.
  apply (at_most_one_progress_per_read
           (scripted "100.000000"
              ["frame=   10 fps=0.0 q=28.0";
               "out_time_ms=50000000" +:+ newline;
               "progress=continue"] 0)
           (convert_to "mp3")
           (<["acodec" := "libmp3lame"]> {["audio_bitrate" := "192k"]})
           {| stderr := map Returns
                          ["frame=   10 fps=0.0 q=28.0";
                           "out_time_ms=50000000" +:+ newline;
                           "progress=continue"];
              returncode := 0 |}); reflexivity.
Defined.
